(** * Two AWS Lambda handlers: the EC2 office-hours scheduler and the
      RDS cross-region snapshot replicator

    A shallow embedding of

      - [lambda-start-stop-ec2/lambda.py]  (module [Scheduler]),
      - [rds-cross-region-copy/lambda.py]  (module [Replicator]).

    Both handlers are straight-line Python that talks to a boto3 client.
    The embedding keeps what an observer of an invocation can see: the
    sequence of log lines, subscripts of the event and client calls (the
    trace), the way the invocation ends (normal return or an exception,
    [SystemExit] included) and the provider's state.  The provider is a
    black box: an arbitrary state machine behind the client's methods, any
    of which may raise. *)

From Stdlib Require Import ZArith List Ascii String.
From Stdlib.Floats Require Import SpecFloat.
From stdpp Require Import base gmap strings list.

Set Warnings "-register-all".
Set Default Proof Using "Type".

(** ** Python values, exceptions and the invocation monad *)

Module Py.

(** What [json.loads] hands to a handler. A nested object keeps its key
    order; the event itself is looked up by key only, and is a [gmap]. *)
Inductive value : Type :=
| VNone
| VBool (b : bool)
| VInt (n : Z)
| VFloat (f : spec_float)
| VStr (s : string)
| VList (l : list value)
| VDict (d : list (string * value)).

Abbreviation dict := (gmap string value).

(** The exceptions that can leave a handler. [BotoError] stands for
    whatever the client raises ([ClientError], [WaiterError], parameter
    validation, ...): the handlers never inspect it. *)
Inductive exn : Type :=
| KeyError (key : string)
| IndexError
| TypeError (what : string)
| AttributeError (what : string)
| SystemExit (code : option Z)
| BotoError (name : string).

Inductive result (A : Type) : Type :=
| Ok (a : A)
| Raise (e : exn).
Arguments Ok {A} a.
Arguments Raise {A} e.

(** One piece of what a [print] call is given: literal text, or a value
    that [print] renders with [str()], which the embedding does not do: a
    [Val] stands for whatever text its value prints as, line breaks
    included, and [ValContext] for whatever the context of the invocation
    prints as. *)
Inductive piece : Type :=
| Txt (s : string)
| Val (v : value)
| ValEvent (e : dict)
| ValContext.

(** Observable steps, over the client calls [C] of the handler: a printed
    line, a subscript of the event, a call of a client method. *)
Inductive obs (C : Type) : Type :=
| Print (line : list piece)
| GetItem (key : string)
| Call (c : C).
Arguments Print {C} line.
Arguments GetItem {C} key.
Arguments Call {C} c.

(** Computations over a provider state [W]: the steps they emit, how they
    end, and the provider state they leave. *)
Definition M (W C A : Type) : Type := W -> result A * list (obs C) * W.

Section Monad.
Context {W C : Type}.

Definition ret {A} (a : A) : M W C A := fun w => (Ok a, [], w).

Definition raise {A} (e : exn) : M W C A := fun w => (Raise e, [], w).

Definition bind {A B} (m : M W C A) (k : A -> M W C B) : M W C B :=
  fun w =>
    match m w with
    | (Ok a, t1, w1) =>
        match k a w1 with
        | (r, t2, w2) => (r, t1 ++ t2, w2)
        end
    | (Raise e, t1, w1) => (Raise e, t1, w1)
    end.

Definition emit (o : obs C) : M W C unit := fun w => (Ok tt, [o], w).

(** [print(...)] *)
Definition print (line : list piece) : M W C unit := emit (Print line).

(** A client method: the step is recorded, then the provider answers. *)
Definition call {A} (c : C) (method : W -> result A * W) : M W C A :=
  fun w => match method w with (r, w') => (r, [Call c], w') end.

(** [d[key]] on a dictionary. *)
Definition getitem (d : dict) (key : string) : M W C value :=
  bind (emit (GetItem key))
       (fun _ => match d !! key with
                 | Some v => ret v
                 | None => raise (KeyError key)
                 end).

(** [os.environ[key]] *)
Definition environ (env : gmap string string) (key : string) : M W C string :=
  match env !! key with
  | Some v => ret v
  | None => raise (KeyError key)
  end.

(** [for x in l: body(x)] *)
Fixpoint for_each {A} (body : A -> M W C unit) (l : list A) : M W C unit :=
  match l with
  | [] => ret tt
  | x :: rest => bind (body x) (fun _ => for_each body rest)
  end.
End Monad.

Declare Scope py_scope.
Delimit Scope py_scope with py.
Notation "'do' x <- m ;; k" := (bind m (fun x => k))
  (at level 10, x name, m at level 99, k at level 200,
   format "'[v' 'do'  x  <-  m  ;; '/' k ']'") : py_scope.
Notation "'run' m ;; k" := (bind m (fun _ => k))
  (at level 10, m at level 99, k at level 200,
   format "'[v' 'run'  m  ;; '/' k ']'") : py_scope.

(** The three projections of a finished run. *)
Definition outcome {A T W} (r : result A * T * W) : result A := r.1.1.
Definition trace {A T W} (r : result A * T * W) : T := r.1.2.
Definition final {A T W} (r : result A * T * W) : W := r.2.

(** The client calls of a trace, in order. *)
Fixpoint calls {C} (t : list (obs C)) : list C :=
  match t with
  | [] => []
  | Call c :: t => c :: calls t
  | _ :: t => calls t
  end.

(** The [print] calls of a trace, in order, each with what it was given.
    A call writes one line when its pieces render without a line break. *)
Fixpoint printed {C} (t : list (obs C)) : list (list piece) :=
  match t with
  | [] => []
  | Print l :: t => l :: printed t
  | _ :: t => printed t
  end.

(** *** Strings *)

(** [s.split(c)] for a one-character separator: never empty, and an empty
    field wherever two separators touch or one ends the string. *)
Fixpoint split (c : ascii) (s : string) : list string :=
  match s with
  | EmptyString => [EmptyString]
  | String a s' =>
      if Ascii.eqb a c then EmptyString :: split c s'
      else match split c s' with
           | field :: fields => String a field :: fields
           | [] => [String a EmptyString]
           end
  end.

(** [l[-1]] *)
Definition last_item {W C A} (l : list A) : M W C A :=
  match List.rev l with
  | x :: _ => ret x
  | [] => raise IndexError
  end.

(** [v.split(':')]: only [str] has the method. *)
Definition split_method {W C} (v : value) (c : ascii) : M W C (list string) :=
  match v with
  | VStr s => ret (split c s)
  | VNone => raise (AttributeError "'NoneType' object has no attribute 'split'")
  | VBool _ => raise (AttributeError "'bool' object has no attribute 'split'")
  | VInt _ => raise (AttributeError "'int' object has no attribute 'split'")
  | VFloat _ => raise (AttributeError "'float' object has no attribute 'split'")
  | VList _ => raise (AttributeError "'list' object has no attribute 'split'")
  | VDict _ => raise (AttributeError "'dict' object has no attribute 'split'")
  end.

(** Strings are kept as their UTF-8 bytes. A byte [10xxxxxx] continues
    the character begun before it. *)
Definition is_continuation (a : ascii) : bool :=
  match a with
  | Ascii _ _ _ _ _ _ b6 b7 => b7 && negb b6
  end.

(** [true] when the string goes on with the character begun before it. *)
Definition continues (s : string) : bool :=
  match s with
  | String b _ => is_continuation b
  | EmptyString => false
  end.

(** The characters of a string, each with all its bytes: what iterating
    over a [str] yields. A byte opens a character, and the continuation
    bytes that follow it belong to that character. *)
Fixpoint characters (s : string) : list string :=
  match s with
  | EmptyString => []
  | String a s' =>
      let rest := characters s' in
      match rest with
      | c :: cs =>
          if continues s' then String a c :: cs
          else String a EmptyString :: rest
      | [] => [String a EmptyString]
      end
  end.

(** The items a [for] loop draws from a value: the elements of a list,
    the keys of a dict, the characters of a string. *)
Definition iter {W C} (v : value) : M W C (list value) :=
  match v with
  | VList l => ret l
  | VDict d => ret (List.map (fun kv => VStr kv.1) d)
  | VStr s => ret (List.map VStr (characters s))
  | VNone => raise (TypeError "'NoneType' object is not iterable")
  | VBool _ => raise (TypeError "'bool' object is not iterable")
  | VInt _ => raise (TypeError "'int' object is not iterable")
  | VFloat _ => raise (TypeError "'float' object is not iterable")
  end.

(** [v == s] for a string literal [s]: no other JSON value equals a string. *)
Definition eq_str (v : value) (s : string) : bool :=
  match v with
  | VStr t => String.eqb t s
  | _ => false
  end.

(** The status the interpreter exits with when an exception reaches the
    top: [exit()] is [SystemExit(None)], status 0. *)
Definition exit_status {A} (r : result A) : Z :=
  match r with
  | Ok _ => 0
  | Raise (SystemExit None) => 0
  | Raise (SystemExit (Some n)) => n
  | Raise _ => 1
  end.

End Py.

(** ** The snapshot replicator: [rds-cross-region-copy/lambda.py] *)

Module Replicator.
Import Py.
Local Open Scope py_scope.

Record tag : Type := { Key : string; Value : string }.

(** The keyword arguments of [client.copy_db_snapshot]. The source
    identifier is the loop variable as it is, whatever it holds. *)
Record copy_request : Type := {
  SourceDBSnapshotIdentifier : value;
  TargetDBSnapshotIdentifier : string;
  Tags : list tag;
  SourceRegion : string;
  KmsKeyId : string
}.

Inductive rds_call : Type :=
| Boto3Client (service region_name : string)
| CopyDBSnapshot (req : copy_request).

(** boto3, as the handler uses it, over a provider state [W]. *)
Class RDS (W : Type) : Type := {
  boto3_client : string -> string -> W -> result unit * W;
  copy_db_snapshot : copy_request -> W -> result value * W
}.

(** The copy requests among the client calls. *)
Fixpoint copies (cs : list rds_call) : list copy_request :=
  match cs with
  | [] => []
  | CopyDBSnapshot req :: cs => req :: copies cs
  | Boto3Client _ _ :: cs => copies cs
  end.

Section Handler.
Context {W : Type} `{RDS W} {LambdaContext : Type}.

(** Lines 8-23, the body of the loop. Keyword arguments are evaluated
    left to right, so [SOURCE_REGION] is read twice and before the key. *)
Definition copy_snapshot (os_environ : gmap string string) (snapshot_arn : value)
  : M W rds_call unit :=
  do arn <- split_method snapshot_arn ":" ;;
  do snapshot_name <- last_item arn ;;
  do tag_value <- environ os_environ "SOURCE_REGION" ;;
  do source_region <- environ os_environ "SOURCE_REGION" ;;
  do kms_key_id <- environ os_environ "DESTINATION_REGION_KMS_KEY_ID" ;;
  let req := {| SourceDBSnapshotIdentifier := snapshot_arn;
                TargetDBSnapshotIdentifier := "copy-" +:+ snapshot_name;
                Tags := [ {| Key := "source_region"; Value := tag_value |} ];
                SourceRegion := source_region;
                KmsKeyId := kms_key_id |} in
  do response <- call (CopyDBSnapshot req) (copy_db_snapshot req) ;;
  print [Val response].

Definition lambda_handler (os_environ : gmap string string)
    (event : dict) (context : LambdaContext) : M W rds_call unit :=
  do region_name <- environ os_environ "DESTINATION_REGION" ;;
  run call (Boto3Client "rds" region_name) (boto3_client "rds" region_name) ;;
  do resources <- getitem event "resources" ;;
  do items <- iter resources ;;
  for_each (copy_snapshot os_environ) items.
End Handler.

(** *** Vocabulary for the replicator's properties *)

(** [true] when [s] has no colon. *)
Fixpoint no_colon (s : string) : bool :=
  match s with
  | EmptyString => true
  | String a s' => negb (Ascii.eqb a ":") && no_colon s'
  end.

(** The final colon-delimited segment, in the words of the specification:
    [seg] has no colon, and the name is [seg] alone or ends in [":" seg]. *)
Definition final_segment (name seg : string) : Prop :=
  no_colon seg = true /\ (name = seg \/ exists pre, name = pre +:+ ":" +:+ seg).

(** What the code takes for the snapshot name: [arn[-1]]. *)
Definition name_of (snapshot_arn : string) : string :=
  List.last (split ":" snapshot_arn) EmptyString.

(** The request the loop body builds for a string entry when the
    environment holds [source_region] and [kms_key_id]. *)
Definition request_for (source_region kms_key_id snapshot_arn : string) : copy_request :=
  {| SourceDBSnapshotIdentifier := VStr snapshot_arn;
     TargetDBSnapshotIdentifier := "copy-" +:+ name_of snapshot_arn;
     Tags := [ {| Key := "source_region"; Value := source_region |} ];
     SourceRegion := source_region;
     KmsKeyId := kms_key_id |}.

(** The provider's state after it has accepted every request of a list,
    [None] as soon as it refuses one. *)
Fixpoint accepted {W} `{RDS W} (reqs : list copy_request) (w : W) : option W :=
  match reqs with
  | [] => Some w
  | req :: reqs =>
      match copy_db_snapshot req w with
      | (Ok _, w') => accepted reqs w'
      | (Raise _, _) => None
      end
  end.

(** A request carries the deployment's configuration. *)
Definition configured (os_environ : gmap string string) (req : copy_request) : Prop :=
  os_environ !! "SOURCE_REGION" = Some (SourceRegion req) /\
  os_environ !! "DESTINATION_REGION_KMS_KEY_ID" = Some (KmsKeyId req) /\
  Tags req = [ {| Key := "source_region"; Value := SourceRegion req |} ].

(** The three parameters two requests must share. *)
Definition same_deployment (r1 r2 : copy_request) : Prop :=
  SourceRegion r1 = SourceRegion r2 /\
  KmsKeyId r1 = KmsKeyId r2 /\
  Tags r1 = Tags r2.

(** One request per entry, in order, each with the configured source
    region as parameter and as tag: the property of an event with [names]
    for resources, whatever the provider does. *)
Definition one_copy_per_entry {W} `{RDS W} {LambdaContext : Type}
    (os_environ : gmap string string) (event : dict) (context : LambdaContext)
    (w : W) (names : list string) : Prop :=
  let sent := copies (calls (trace (lambda_handler os_environ event context w))) in
  length sent = length names /\
  SourceDBSnapshotIdentifier <$> sent = VStr <$> names /\
  Forall (configured os_environ) sent.

(** *** Sample providers and inputs *)

(** A provider that accepts [n] more copies and refuses the next with
    [DBSnapshotAlreadyExists]; its state is the number left. *)
Definition budget_copy (req : copy_request) (left : nat) : result value * nat :=
  match left with
  | O => (Raise (BotoError "DBSnapshotAlreadyExists"), O)
  | S left' =>
      (Ok (VDict [("DBSnapshotIdentifier", VStr (TargetDBSnapshotIdentifier req))]), left')
  end.

#[export] Instance budget : RDS nat :=
  {| boto3_client := fun _ _ left => (Ok tt, left);
     copy_db_snapshot := budget_copy |}.

Definition deployment : gmap string string :=
  <["SOURCE_REGION" := "us-east-1"]>
    (<["DESTINATION_REGION" := "eu-west-1"]>
       (<["DESTINATION_REGION_KMS_KEY_ID" := "alias/replica"]> ∅)).

Definition event_of (resources : list string) : dict :=
  <["resources" := VList (VStr <$> resources)]> ∅.

Definition nightly : string := "arn:aws:rds:us-east-1:123456789012:snapshot:nightly-2024".
Definition weekly : string := "arn:aws:rds:us-east-1:123456789012:snapshot:weekly-07".

End Replicator.

(** ** The instance scheduler: [lambda-start-stop-ec2/lambda.py] *)

Module Scheduler.
Import Py.
Local Open Scope py_scope.

Definition TAG_KEY : string := "Scheduled".
Definition TAG_VALUE : string := "OfficeHours".

Record filter : Type := { Name : string; Values : list string }.

(** The part of a [describe_instances] response the handler reads. *)
Record instance : Type := { InstanceId : string }.
Record reservation : Type := { Instances : list instance }.
Record describe_response : Type := { Reservations : list reservation }.

Inductive ec2_call : Type :=
| DescribeInstances (Filters : list filter)
| StartInstances (InstanceIds : list string)
| StopInstances (InstanceIds : list string)
| WaiterWait (waiter_name : string) (InstanceIds : list string).

(** The module-level [client], over a provider state [W]. A waiter polls
    inside the client and raises when it gives up. *)
Class EC2 (W : Type) : Type := {
  client_describe_instances : list filter -> W -> result describe_response * W;
  client_start_instances : list string -> W -> result value * W;
  client_stop_instances : list string -> W -> result value * W;
  client_wait : string -> list string -> W -> result unit * W
}.

(** Lines 36-39: the two nested loops appending to [instance_ids]. *)
Definition collect_instance_ids (response : describe_response) : list string :=
  fold_left
    (fun instance_ids reservation =>
       fold_left (fun instance_ids instance => instance_ids ++ [InstanceId instance])
                 (Instances reservation) instance_ids)
    (Reservations response) [].

(** [sep.join(l)] *)
Definition join (sep : string) (l : list string) : string := String.concat sep l.

Section Handler.
Context {W : Type} `{EC2 W} {LambdaContext : Type}.

Definition start_instances (instance_ids : list string) : M W ec2_call unit :=
  run print [Txt "Starting instances..."] ;;
  run call (StartInstances instance_ids) (client_start_instances instance_ids) ;;
  run print [Txt "Waiting for instances to start..."] ;;
  run call (WaiterWait "instance_running" instance_ids)
           (client_wait "instance_running" instance_ids) ;;
  print [Txt "Instances started successfully"].

Definition stop_instances (instance_ids : list string) : M W ec2_call unit :=
  run print [Txt "Stopping instances..."] ;;
  run call (StopInstances instance_ids) (client_stop_instances instance_ids) ;;
  run print [Txt "Waiting for instances to stop..."] ;;
  run call (WaiterWait "instance_stopped" instance_ids)
           (client_wait "instance_stopped" instance_ids) ;;
  print [Txt "Instances stopped successfully"].

Definition lambda_handler (event : dict) (context : LambdaContext)
  : M W ec2_call unit :=
  run print [ValEvent event] ;;
  run print [ValContext] ;;
  let custom_filter :=
    [ {| Name := "tag:" +:+ TAG_KEY; Values := [TAG_VALUE] |} ] in
  do response <- call (DescribeInstances custom_filter)
                      (client_describe_instances custom_filter) ;;
  let instance_ids := collect_instance_ids response in
  match instance_ids with
  | [] =>
      run print [Txt ("Found no instance ids with tag "
                      +:+ TAG_KEY +:+ "=" +:+ TAG_VALUE)] ;;
      raise (SystemExit None)
  | _ :: _ =>
      run print [Txt ("Found instance ids " +:+ join "," instance_ids
                      +:+ " with tag " +:+ TAG_KEY +:+ "=" +:+ TAG_VALUE)] ;;
      do action <- getitem event "Action" ;;
      if eq_str action "Start" then start_instances instance_ids
      else
        do action <- getitem event "Action" ;;
        if eq_str action "Stop" then stop_instances instance_ids
        else
          do action <- getitem event "Action" ;;
          print [Txt "Unknown action "; Val action; Txt " provided by event."]
  end.
End Handler.

(** The filter every lookup is made with: [tag:Scheduled = OfficeHours]. *)
Definition office_hours : list filter :=
  [ {| Name := "tag:Scheduled"; Values := ["OfficeHours"] |} ].

(** The identifiers a lookup returned: those of every instance of every
    reservation, in the order of the response. *)
Definition returned_ids (response : describe_response) : list string :=
  flat_map (fun reservation => InstanceId <$> Instances reservation)
           (Reservations response).

(** The lookup, as opposed to the calls that change or await a state. *)
Definition is_lookup (c : ec2_call) : bool :=
  match c with
  | DescribeInstances _ => true
  | _ => false
  end.

(** The first three steps of every invocation. *)
Definition prelude (event : dict) : list (obs ec2_call) :=
  [ Print [ValEvent event]; Print [ValContext];
    Call (DescribeInstances office_hours) ].

(** The line logged for an action that is neither [Start] nor [Stop]. *)
Definition unknown_action_line (action : value) : list piece :=
  [Txt "Unknown action "; Val action; Txt " provided by event."].

(** *** Sample providers and inputs *)

(** A provider that answers from a script, which is also its state. *)
Record script : Type := {
  on_describe : result describe_response;
  on_start : result value;
  on_stop : result value;
  on_wait : result unit
}.

#[export] Instance scripted : EC2 script :=
  {| client_describe_instances := fun _ s => (on_describe s, s);
     client_start_instances := fun _ s => (on_start s, s);
     client_stop_instances := fun _ s => (on_stop s, s);
     client_wait := fun _ _ s => (on_wait s, s) |}.

Definition two_instances : describe_response :=
  {| Reservations :=
       [ {| Instances := [ {| InstanceId := "i-111" |} ] |};
         {| Instances := [ {| InstanceId := "i-222" |} ] |} ] |}.

Definition no_instances : describe_response :=
  {| Reservations := [ {| Instances := [] |} ] |}.

(** Every call succeeds. *)
Definition healthy (found : describe_response) : script :=
  {| on_describe := Ok found;
     on_start := Ok (VDict []);
     on_stop := Ok (VDict []);
     on_wait := Ok tt |}.

(** The lookup succeeds, starting and stopping are refused. *)
Definition read_only (found : describe_response) : script :=
  {| on_describe := Ok found;
     on_start := Raise (BotoError "UnauthorizedOperation");
     on_stop := Raise (BotoError "UnauthorizedOperation");
     on_wait := Ok tt |}.

Definition event_of (action : value) : dict := <["Action" := action]> ∅.

End Scheduler.

(** ** Kinds of values and of runs *)

Module Kinds.
Import Py.

(** [isinstance(v, str)] *)
Definition is_str (v : value) : bool :=
  match v with
  | VStr _ => true
  | _ => false
  end.

(** The values a [for] loop cannot draw from: [None], booleans, numbers. *)
Definition scalar (v : value) : bool :=
  match v with
  | VNone | VBool _ | VInt _ | VFloat _ => true
  | VStr _ | VList _ | VDict _ => false
  end.

(** How many times a character occurs in a string. *)
Fixpoint occurrences (c : ascii) (s : string) : nat :=
  match s with
  | EmptyString => 0
  | String a s' => (if Ascii.eqb a c then 1 else 0) + occurrences c s'
  end.

(** The subscripts of the event in a trace, in order. *)
Fixpoint subscripts {C} (t : list (obs C)) : list string :=
  match t with
  | [] => []
  | GetItem key :: t => key :: subscripts t
  | _ :: t => subscripts t
  end.

(** An event with nothing but [resources]. *)
Definition resources_event (resources : value) : dict :=
  <["resources" := resources]> ∅.

(** An environment with the destination region only. *)
Definition destination_only : gmap string string :=
  <["DESTINATION_REGION" := "eu-west-1"]> ∅.

(** A provider whose lookup is throttled. *)
Definition throttled : Scheduler.script :=
  {| Scheduler.on_describe := Raise (BotoError "RequestLimitExceeded");
     Scheduler.on_start := Ok VNone;
     Scheduler.on_stop := Ok VNone;
     Scheduler.on_wait := Ok tt |}.

(** A [Stop] event as a scheduled rule sends it, with a field more. *)
Definition scheduled_stop : dict :=
  <["source" := VStr "aws.events"]> (Scheduler.event_of (VStr "Stop")).

End Kinds.

(** ** Properties of the invocation monad and of [split] *)

Module PyFacts.
Import Py.

Lemma calls_app {C} (t1 t2 : list (obs C)) : calls (t1 ++ t2) = calls t1 ++ calls t2.
Proof.
  induction t1 as [|o t1 IH]; [reflexivity|].
  destruct o; simpl; rewrite IH; reflexivity.
Qed.

Lemma printed_app {C} (t1 t2 : list (obs C)) :
  printed (t1 ++ t2) = printed t1 ++ printed t2.
Proof.
  induction t1 as [|o t1 IH]; [reflexivity|].
  destruct o; simpl; rewrite IH; reflexivity.
Qed.

(** A sequence runs its second half from where the first half stopped. *)
Lemma bind_ok {W C A B} (m : M W C A) (k : A -> M W C B) w a t1 w1 :
  m w = (Ok a, t1, w1) ->
  bind m k w = (outcome (k a w1), t1 ++ trace (k a w1), final (k a w1)).
Proof.
  intros Hm. unfold bind. rewrite Hm.
  destruct (k a w1) as [[r t2] w2]. reflexivity.
Qed.

(** An exception skips the rest. *)
Lemma bind_raise {W C A B} (m : M W C A) (k : A -> M W C B) w e t1 w1 :
  m w = (Raise e, t1, w1) -> bind m k w = (Raise e, t1, w1).
Proof. intros Hm. unfold bind. rewrite Hm. reflexivity. Qed.

Lemma split_nonempty c s : split c s <> [].
Proof.
  destruct s as [|a s]; simpl; [discriminate|].
  destruct (Ascii.eqb a c); [discriminate|].
  destruct (split c s); discriminate.
Qed.

(** Splitting after a separator: the fields before it, then those after. *)
Lemma split_app c pre post :
  split c (pre +:+ String c post) = split c pre ++ split c post.
Proof.
  induction pre as [|a pre IH]; simpl.
  - rewrite Ascii.eqb_refl. reflexivity.
  - destruct (Ascii.eqb a c); [rewrite IH; reflexivity|].
    rewrite IH. destruct (split c pre) as [|f fs] eqn:E.
    + exfalso. exact (split_nonempty _ _ E).
    + reflexivity.
Qed.

(** [l[-1]] on a list that is not empty is its last element. *)
Lemma last_item_last {W C A} (l : list A) (d : A) (w : W) :
  l <> [] -> last_item (C := C) l w = (Ok (List.last l d), [], w).
Proof.
  intros Hl. unfold last_item.
  destruct l as [|x l] using rev_ind; [congruence|].
  rewrite rev_app_distr. simpl. rewrite last_last. reflexivity.
Qed.

End PyFacts.

(** ** The snapshot replicator: properties *)

Module ReplicatorSpec.
Import Py PyFacts Replicator.

Lemma copies_app cs1 cs2 : copies (cs1 ++ cs2) = copies cs1 ++ copies cs2.
Proof.
  induction cs1 as [|c cs1 IH]; [reflexivity|].
  destruct c; simpl; rewrite IH; reflexivity.
Qed.

(** *** Names and their last segment *)

Lemma no_colon_split s : no_colon s = true -> split ":" s = [s].
Proof.
  induction s as [|a s IH]; simpl; [reflexivity|].
  intros [Ha Hs]%andb_prop. apply negb_true_iff in Ha.
  rewrite Ha, (IH Hs). reflexivity.
Qed.

Lemma name_of_no_colon s : no_colon s = true -> name_of s = s.
Proof. intros Hs. unfold name_of. rewrite (no_colon_split _ Hs). reflexivity. Qed.

Lemma name_of_suffix pre seg :
  no_colon seg = true -> name_of (pre +:+ ":" +:+ seg) = seg.
Proof.
  intros Hseg. unfold name_of.
  change (pre +:+ ":" +:+ seg) with (pre +:+ String ":" seg).
  rewrite split_app, (no_colon_split _ Hseg).
  apply last_last.
Qed.

(** The code's [arn[-1]] is the final segment of the specification. *)
Lemma name_of_final name seg : final_segment name seg -> name_of name = seg.
Proof.
  intros [Hseg [-> | [pre ->]]].
  - apply name_of_no_colon, Hseg.
  - apply name_of_suffix, Hseg.
Qed.

(** Every name has a final segment. *)
Lemma final_segment_exists name : exists seg, final_segment name seg.
Proof.
  induction name as [|a name [seg [Hseg Hname]]].
  - exists EmptyString. split; [reflexivity | left; reflexivity].
  - destruct Hname as [-> | [pre ->]].
    + destruct (Ascii.eqb a ":") eqn:Ha.
      * apply Ascii.eqb_eq in Ha as ->. exists seg. split; [exact Hseg|].
        right. exists EmptyString. reflexivity.
      * exists (String a seg). split; [|left; reflexivity].
        simpl. rewrite Ha, Hseg. reflexivity.
    + exists seg. split; [exact Hseg|]. right. exists (String a pre). reflexivity.
Qed.

(** *** One turn of the loop *)

Section Body.
Context {W : Type} `{RDS W}.
Implicit Types (os_environ : gmap string string) (w : W).

(** With the environment in place, a string entry costs exactly one
    request, and the response is printed if one comes back. *)
Lemma copy_snapshot_str os_environ source_region kms_key_id s w :
  os_environ !! "SOURCE_REGION" = Some source_region ->
  os_environ !! "DESTINATION_REGION_KMS_KEY_ID" = Some kms_key_id ->
  copy_snapshot os_environ (VStr s) w =
    let req := request_for source_region kms_key_id s in
    match copy_db_snapshot req w with
    | (Ok response, w') =>
        (Ok tt, [Call (CopyDBSnapshot req); Print [Val response]], w')
    | (Raise e, w') => (Raise e, [Call (CopyDBSnapshot req)], w')
    end.
Proof.
  intros Hsrc Hkms.
  unfold copy_snapshot, split_method.
  rewrite (bind_ok _ _ w (split ":" s) [] w) by reflexivity.
  rewrite (bind_ok _ _ w (name_of s) [] w)
    by (apply last_item_last, split_nonempty).
  unfold environ. rewrite Hsrc, Hkms.
  unfold bind, ret, call, print, emit, outcome, trace, final. simpl.
  fold (request_for source_region kms_key_id s).
  destruct (copy_db_snapshot _ w) as [[response|e] w']; reflexivity.
Qed.

(** In any environment a turn sends at most one request, and only for a
    string entry. *)
Lemma copy_snapshot_cases os_environ v w :
  (exists req response w',
      SourceDBSnapshotIdentifier req = v /\ configured os_environ req /\
      copy_db_snapshot req w = (Ok response, w') /\
      copy_snapshot os_environ v w =
        (Ok tt, [Call (CopyDBSnapshot req); Print [Val response]], w')) \/
  (exists req e w',
      SourceDBSnapshotIdentifier req = v /\ configured os_environ req /\
      copy_db_snapshot req w = (Raise e, w') /\
      copy_snapshot os_environ v w = (Raise e, [Call (CopyDBSnapshot req)], w')) \/
  (exists e, copy_snapshot os_environ v w = (Raise e, [], w)).
Proof.
  destruct v as [| | | |s| |];
    try (right; right; eexists; reflexivity).
  destruct (os_environ !! "SOURCE_REGION") as [src|] eqn:Hsrc;
    [destruct (os_environ !! "DESTINATION_REGION_KMS_KEY_ID") as [kms|] eqn:Hkms|].
  - rewrite (copy_snapshot_str _ _ _ _ _ Hsrc Hkms). simpl.
    destruct (copy_db_snapshot _ w) as [[response|e] w'] eqn:Hcopy.
    + left. exists (request_for src kms s), response, w'.
      repeat split; assumption.
    + right; left. exists (request_for src kms s), e, w'.
      repeat split; assumption.
  - right; right. exists (KeyError "DESTINATION_REGION_KMS_KEY_ID").
    unfold copy_snapshot, split_method.
    rewrite (bind_ok _ _ w (split ":" s) [] w) by reflexivity.
    rewrite (bind_ok _ _ w (name_of s) [] w)
      by (apply last_item_last, split_nonempty).
    unfold environ. rewrite Hsrc, Hkms. reflexivity.
  - right; right. exists (KeyError "SOURCE_REGION").
    unfold copy_snapshot, split_method.
    rewrite (bind_ok _ _ w (split ":" s) [] w) by reflexivity.
    rewrite (bind_ok _ _ w (name_of s) [] w)
      by (apply last_item_last, split_nonempty).
    unfold environ. rewrite Hsrc. reflexivity.
Qed.
End Body.

(** *** The loop and the handler around it *)

Section Loop.
Context {W : Type} `{RDS W} {LambdaContext : Type}.
Implicit Types (os_environ : gmap string string) (w : W) (event : dict)
  (context : LambdaContext).

(** Whatever the items, every request the loop sends is configured. *)
Lemma loop_configured os_environ items w :
  Forall (configured os_environ)
    (copies (calls (trace (for_each (copy_snapshot os_environ) items w)))).
Proof.
  revert w. induction items as [|v items IH]; intros w; [constructor|].
  cbn [for_each].
  destruct (copy_snapshot_cases os_environ v w)
    as [(req & response & w' & _ & Hreq & _ & Hrun)
       |[(req & e & w' & _ & Hreq & _ & Hrun) | [e Hrun]]].
  - rewrite (bind_ok _ _ _ _ _ _ Hrun). cbn [trace fst snd].
    rewrite calls_app, copies_app. apply Forall_app. split; [|apply IH].
    cbn. constructor; [exact Hreq | constructor].
  - rewrite (bind_raise _ _ _ _ _ _ Hrun).
    cbn. constructor; [exact Hreq | constructor].
  - rewrite (bind_raise _ _ _ _ _ _ Hrun). constructor.
Qed.

(** Over string entries the requests follow the entries in order, and
    a loop that finishes has sent one for each. *)
Lemma loop_sources os_environ names w :
  let r := for_each (copy_snapshot os_environ) (VStr <$> names) w in
  let sent := copies (calls (trace r)) in
  SourceDBSnapshotIdentifier <$> sent = VStr <$> take (length sent) names /\
  (outcome r = Ok tt -> length sent = length names).
Proof.
  revert w. induction names as [|s names IH]; intros w; [split; reflexivity|].
  cbn zeta in *. rewrite fmap_cons. cbn [for_each].
  destruct (copy_snapshot_cases os_environ (VStr s) w)
    as [(req & response & w' & Hsrc & _ & _ & Hrun)
       |[(req & e & w' & Hsrc & _ & _ & Hrun) | [e Hrun]]].
  - rewrite (bind_ok _ _ _ _ _ _ Hrun). cbn [trace outcome fst snd].
    rewrite calls_app, copies_app. cbn [calls copies app length take].
    destruct (IH w') as [IH1 IH2]. split.
    + rewrite !fmap_cons, Hsrc. f_equal. exact IH1.
    + intros Hok. f_equal. apply IH2, Hok.
  - rewrite (bind_raise _ _ _ _ _ _ Hrun). cbn. split; [|discriminate].
    rewrite Hsrc. reflexivity.
  - rewrite (bind_raise _ _ _ _ _ _ Hrun). cbn. split; [reflexivity|discriminate].
Qed.

(** A loop over entries the provider accepts gets through them. *)
Lemma loop_accepted os_environ source_region kms_key_id before rest w w' :
  os_environ !! "SOURCE_REGION" = Some source_region ->
  os_environ !! "DESTINATION_REGION_KMS_KEY_ID" = Some kms_key_id ->
  accepted (request_for source_region kms_key_id <$> before) w = Some w' ->
  exists t,
    copies (calls t) = request_for source_region kms_key_id <$> before /\
    length (printed t) = length before /\
    for_each (copy_snapshot os_environ) (VStr <$> (before ++ rest)) w =
      let r := for_each (copy_snapshot os_environ) (VStr <$> rest) w' in
      (outcome r, t ++ trace r, final r).
Proof.
  intros Hsrc Hkms. revert w.
  induction before as [|s before IH]; intros w Hacc.
  - injection Hacc as <-. exists []. repeat split.
    cbn. destruct (for_each _ _ w) as [[r t] w1]. reflexivity.
  - rewrite fmap_cons in Hacc. cbn [accepted] in Hacc.
    destruct (copy_db_snapshot _ w) as [[response|e] w1] eqn:Hcopy; [|discriminate].
    destruct (IH w1 Hacc) as (t & Ht & Hp & Hrun).
    exists (Call (CopyDBSnapshot (request_for source_region kms_key_id s))
              :: Print [Val response] :: t).
    split; [|split].
    + cbn. rewrite Ht. reflexivity.
    + cbn. rewrite Hp. reflexivity.
    + change ((s :: before) ++ rest) with (s :: (before ++ rest)).
      rewrite fmap_cons. cbn [for_each].
      rewrite (bind_ok _ _ w tt
                 [Call (CopyDBSnapshot (request_for source_region kms_key_id s));
                  Print [Val response]] w1)
        by (rewrite (copy_snapshot_str _ _ _ _ _ Hsrc Hkms); cbn;
            rewrite Hcopy; reflexivity).
      rewrite Hrun. reflexivity.
Qed.

(** How far the handler gets before the loop. *)
Lemma handler_shape os_environ event context w :
  (exists e t w',
      lambda_handler os_environ event context w = (Raise e, t, w') /\
      copies (calls t) = []) \/
  (exists region_name resources items w1,
      os_environ !! "DESTINATION_REGION" = Some region_name /\
      boto3_client "rds" region_name w = (Ok tt, w1) /\
      event !! "resources" = Some resources /\
      iter (C := rds_call) resources w1 = (Ok items, [], w1) /\
      lambda_handler os_environ event context w =
        let r := for_each (copy_snapshot os_environ) items w1 in
        (outcome r,
         Call (Boto3Client "rds" region_name) :: GetItem "resources" :: trace r,
         final r)).
Proof.
  unfold lambda_handler, environ, getitem.
  destruct (os_environ !! "DESTINATION_REGION") as [region_name|] eqn:Hdst;
    [|left; do 3 eexists; split; reflexivity].
  destruct (boto3_client "rds" region_name w) as [[[]|e] w1] eqn:Hclient.
  2:{ left. exists e, [Call (Boto3Client "rds" region_name)], w1.
      split; [|reflexivity].
      unfold bind, ret, call. cbn. rewrite Hclient. reflexivity. }
  destruct (event !! "resources") as [resources|] eqn:Hres.
  2:{ left. exists (KeyError "resources"),
        [Call (Boto3Client "rds" region_name); GetItem "resources"], w1.
      split; [|reflexivity].
      unfold bind, ret, call, emit, raise. cbn. rewrite Hclient. reflexivity. }
  destruct (iter (C := rds_call) resources w1) as [[[items|e] t] w2] eqn:Hiter.
  - assert (t = [] /\ w2 = w1) as [-> ->]
      by (unfold iter, ret, raise in Hiter; destruct resources;
          split; congruence).
    right. exists region_name, resources, items, w1.
    repeat split; try assumption.
    unfold bind, ret, call, emit. cbn. rewrite Hclient, Hiter.
    destruct (for_each _ items w1) as [[r t] w2]. reflexivity.
  - assert (t = [] /\ w2 = w1) as [-> ->]
      by (unfold iter, ret, raise in Hiter; destruct resources;
          split; congruence).
    left. exists e,
      [Call (Boto3Client "rds" region_name); GetItem "resources"], w1.
    split; [|reflexivity].
    unfold bind, ret, call, emit. cbn. rewrite Hclient, Hiter. reflexivity.
Qed.
End Loop.

Section Handler.
Context {W : Type} `{RDS W} {LambdaContext : Type}.
Implicit Types (os_environ : gmap string string) (w : W) (event : dict)
  (context : LambdaContext).

Lemma handler_configured os_environ event context w :
  Forall (configured os_environ)
    (copies (calls (trace (lambda_handler os_environ event context w)))).
Proof.
  destruct (handler_shape os_environ event context w)
    as [(e & t & w' & -> & Ht)
       |(region_name & resources & items & w1 & _ & _ & _ & _ & ->)].
  - cbn [trace fst snd]. rewrite Ht. constructor.
  - cbn. apply loop_configured.
Qed.

(** The handler on a list of names, once the client exists. *)
Lemma handler_on_names os_environ event context w region_name names w1 :
  os_environ !! "DESTINATION_REGION" = Some region_name ->
  event !! "resources" = Some (VList (VStr <$> names)) ->
  boto3_client "rds" region_name w = (Ok tt, w1) ->
  lambda_handler os_environ event context w =
    let r := for_each (copy_snapshot os_environ) (VStr <$> names) w1 in
    (outcome r,
     Call (Boto3Client "rds" region_name) :: GetItem "resources" :: trace r,
     final r).
Proof.
  intros Hdst Hres Hclient.
  unfold lambda_handler, environ, getitem. rewrite Hdst, Hres.
  unfold bind, ret, call, emit, iter. cbn. rewrite Hclient.
  destruct (for_each _ _ w1) as [[r t] w2]. reflexivity.
Qed.

(** The handler up to and including the first entry after a run of
    accepted ones. *)
Lemma handler_reaches os_environ event context w
    region_name source_region kms_key_id before s after w1 w2 :
  os_environ !! "DESTINATION_REGION" = Some region_name ->
  os_environ !! "SOURCE_REGION" = Some source_region ->
  os_environ !! "DESTINATION_REGION_KMS_KEY_ID" = Some kms_key_id ->
  event !! "resources" = Some (VList (VStr <$> (before ++ s :: after))) ->
  boto3_client "rds" region_name w = (Ok tt, w1) ->
  accepted (request_for source_region kms_key_id <$> before) w1 = Some w2 ->
  let r := lambda_handler os_environ event context w in
  match copy_db_snapshot (request_for source_region kms_key_id s) w2 with
  | (Raise e, w3) =>
      outcome r = Raise e /\
      copies (calls (trace r))
        = request_for source_region kms_key_id <$> (before ++ [s]) /\
      length (printed (trace r)) = length before /\
      final r = w3
  | (Ok _, _) =>
      exists more,
        copies (calls (trace r))
          = (request_for source_region kms_key_id <$> (before ++ [s])) ++ more
  end.
Proof.
  intros Hdst Hsrc Hkms Hres Hclient Hacc r. subst r.
  rewrite (handler_on_names _ _ _ _ _ _ _ Hdst Hres Hclient).
  destruct (loop_accepted _ _ _ _ (s :: after) _ _ Hsrc Hkms Hacc)
    as (t & Ht & Hp & ->).
  rewrite fmap_cons. cbn [for_each].
  set (req := request_for source_region kms_key_id s).
  pose proof (copy_snapshot_str _ _ _ s w2 Hsrc Hkms) as Hbody.
  cbn zeta in Hbody. fold req in Hbody.
  destruct (copy_db_snapshot req w2) as [[response|e] w3].
  - rewrite (bind_ok _ _ _ _ _ _ Hbody).
    exists (copies (calls (trace
              (for_each (copy_snapshot os_environ) (VStr <$> after) w3)))).
    cbn. rewrite !calls_app, !copies_app, Ht. cbn.
    rewrite fmap_app, <- app_assoc. reflexivity.
  - rewrite (bind_raise _ _ _ _ _ _ Hbody). cbn.
    rewrite calls_app, copies_app, printed_app, Ht, length_app, Hp, fmap_app.
    cbn. repeat split. lia.
Qed.

(** With the environment in place, when the client is made and the
    provider accepts the request of every entry in turn, the handler
    returns, having sent them all. *)
Lemma handler_completes os_environ event context w
    region_name source_region kms_key_id names w1 w2 :
  os_environ !! "DESTINATION_REGION" = Some region_name ->
  os_environ !! "SOURCE_REGION" = Some source_region ->
  os_environ !! "DESTINATION_REGION_KMS_KEY_ID" = Some kms_key_id ->
  event !! "resources" = Some (VList (VStr <$> names)) ->
  boto3_client "rds" region_name w = (Ok tt, w1) ->
  accepted (request_for source_region kms_key_id <$> names) w1 = Some w2 ->
  let r := lambda_handler os_environ event context w in
  outcome r = Ok tt /\
  copies (calls (trace r)) = request_for source_region kms_key_id <$> names /\
  final r = w2.
Proof.
  intros Hdst Hsrc Hkms Hres Hclient Hacc r. subst r.
  rewrite (handler_on_names _ _ _ _ _ _ _ Hdst Hres Hclient).
  destruct (loop_accepted _ _ _ _ [] _ _ Hsrc Hkms Hacc) as (t & Ht & _ & Hrun).
  rewrite app_nil_r in Hrun. rewrite Hrun. cbn.
  rewrite app_nil_r. repeat split. exact Ht.
Qed.
End Handler.

(** *** What the replicator sends *)

(** C2, as stated, fails: with a provider that refuses the first copy, an
    event of two entries gets one request, not two. *)
Lemma one_copy_per_entry_fails :
  event_of [nightly; weekly] !! "resources"
    = Some (VList (VStr <$> [nightly; weekly])) /\
  copies (calls (trace
     (lambda_handler deployment (event_of [nightly; weekly]) tt 0%nat)))
    = [request_for "us-east-1" "alias/replica" nightly] /\
  ~ one_copy_per_entry deployment (event_of [nightly; weekly]) tt 0%nat
      [nightly; weekly].
Proof.
  split; [reflexivity|]. split; [vm_compute; reflexivity|].
  unfold one_copy_per_entry. intros [Hlen _].
  vm_compute in Hlen. discriminate.
Qed.

(** C2, amended: for an event whose resources are the [N] names [names],
    the copy requests sent are for an initial run of the names, one each
    and in order; every one of them carries the configured source region
    as [SourceRegion] and as the value of the [source_region] tag; and an
    invocation that returns has sent exactly [N]. It does return, having
    sent the [N] requests, in every run in which no call raises: the
    three variables are set, the client is made, and the provider accepts
    the request of each entry in its turn. *)
Theorem copies_follow_resources {W} `{RDS W} {LambdaContext : Type}
    (os_environ : gmap string string) (event : dict) (context : LambdaContext)
    (w : W) (names : list string) :
  event !! "resources" = Some (VList (VStr <$> names)) ->
  let r := lambda_handler os_environ event context w in
  let sent := copies (calls (trace r)) in
  SourceDBSnapshotIdentifier <$> sent = VStr <$> take (length sent) names /\
  Forall (fun req =>
            os_environ !! "SOURCE_REGION" = Some (SourceRegion req) /\
            Tags req = [ {| Key := "source_region"; Value := SourceRegion req |} ])
         sent /\
  (outcome r = Ok tt -> length sent = length names) /\
  (forall region_name source_region kms_key_id w1 w2,
      os_environ !! "DESTINATION_REGION" = Some region_name ->
      os_environ !! "SOURCE_REGION" = Some source_region ->
      os_environ !! "DESTINATION_REGION_KMS_KEY_ID" = Some kms_key_id ->
      boto3_client "rds" region_name w = (Ok tt, w1) ->
      accepted (request_for source_region kms_key_id <$> names) w1 = Some w2 ->
      outcome r = Ok tt /\
      sent = request_for source_region kms_key_id <$> names /\
      final r = w2).
Proof.
  intros Hres r sent. split; [|split; [|split]].
  - subst sent r.
    destruct (handler_shape os_environ event context w)
      as [(e & t & w' & -> & Ht)
         |(region_name & resources & items & w1 & _ & _ & Hres' & Hiter & ->)].
    + cbn [trace fst snd]. rewrite Ht. reflexivity.
    + rewrite Hres in Hres'. injection Hres' as <-.
      injection Hiter as <-. cbn. apply loop_sources.
  - eapply Forall_impl; [apply handler_configured|].
    intros req (Hsrc & _ & Htags). split; assumption.
  - subst sent r.
    destruct (handler_shape os_environ event context w)
      as [(e & t & w' & -> & Ht)
         |(region_name & resources & items & w1 & _ & _ & Hres' & Hiter & ->)].
    + discriminate.
    + rewrite Hres in Hres'. injection Hres' as <-.
      injection Hiter as <-. cbn. apply loop_sources.
  - intros region_name source_region kms_key_id w1 w2 Hdst Hsrc Hkms Hclient Hacc.
    exact (handler_completes os_environ event context w _ _ _ _ _ _
             Hdst Hsrc Hkms Hres Hclient Hacc).
Qed.

(** C7: when the copy request for an entry fails, after the provider has
    accepted those of the entries [before] it, the error leaves the
    handler; the requests sent are those of [before], each answered and
    printed, and then the failing one; none is sent for the entries
    [after] it. *)
Theorem copy_failure_aborts {W} `{RDS W} {LambdaContext : Type}
    (os_environ : gmap string string) (event : dict) (context : LambdaContext)
    (w w1 w2 w3 : W) (region_name source_region kms_key_id : string)
    (before : list string) (failing : string) (after : list string) (e : exn) :
  os_environ !! "DESTINATION_REGION" = Some region_name ->
  os_environ !! "SOURCE_REGION" = Some source_region ->
  os_environ !! "DESTINATION_REGION_KMS_KEY_ID" = Some kms_key_id ->
  event !! "resources" = Some (VList (VStr <$> (before ++ failing :: after))) ->
  boto3_client "rds" region_name w = (Ok tt, w1) ->
  accepted (request_for source_region kms_key_id <$> before) w1 = Some w2 ->
  copy_db_snapshot (request_for source_region kms_key_id failing) w2 = (Raise e, w3) ->
  let r := lambda_handler os_environ event context w in
  outcome r = Raise e /\
  copies (calls (trace r))
    = request_for source_region kms_key_id <$> (before ++ [failing]) /\
  length (printed (trace r)) = length before /\
  final r = w3.
Proof.
  intros Hdst Hsrc Hkms Hres Hclient Hacc Hfail.
  pose proof (handler_reaches os_environ event context w _ _ _ _ _ _ _ _
                Hdst Hsrc Hkms Hres Hclient Hacc) as Hrun.
  cbn zeta in Hrun. rewrite Hfail in Hrun. exact Hrun.
Qed.

(** C8: in two invocations under one environment, whatever the two
    events, contexts and providers, every request of the first agrees
    with every request of the second on [SourceRegion], [KmsKeyId] and
    the [source_region] tag, which are the environment's. *)
Theorem deployment_parameters_fixed {W1 W2} `{RDS W1} `{RDS W2}
    {LambdaContext1 LambdaContext2 : Type}
    (os_environ : gmap string string) (event1 event2 : dict)
    (context1 : LambdaContext1) (context2 : LambdaContext2) (w1 : W1) (w2 : W2) :
  Forall (fun req1 =>
            configured os_environ req1 /\
            Forall (same_deployment req1)
              (copies (calls (trace (lambda_handler os_environ event2 context2 w2)))))
    (copies (calls (trace (lambda_handler os_environ event1 context1 w1)))).
Proof.
  eapply Forall_impl; [apply handler_configured|].
  intros req1 Hreq1. split; [exact Hreq1|].
  eapply Forall_impl; [apply handler_configured|].
  intros req2 Hreq2.
  destruct Hreq1 as (Hs1 & Hk1 & Ht1), Hreq2 as (Hs2 & Hk2 & Ht2).
  assert (SourceRegion req1 = SourceRegion req2) as Hs by congruence.
  repeat split; congruence.
Qed.

(** The calls of one turn on a string entry, whether the copy succeeds
    or not. *)
Lemma body_calls {W} `{RDS W} (os_environ : gmap string string)
    (source_region kms_key_id s : string) (w : W) :
  os_environ !! "SOURCE_REGION" = Some source_region ->
  os_environ !! "DESTINATION_REGION_KMS_KEY_ID" = Some kms_key_id ->
  calls (trace (copy_snapshot os_environ (VStr s) w))
    = [CopyDBSnapshot (request_for source_region kms_key_id s)].
Proof.
  intros Hsrc Hkms. rewrite (copy_snapshot_str _ _ _ _ _ Hsrc Hkms). cbn zeta.
  destruct (copy_db_snapshot _ w) as [[response|e] w']; reflexivity.
Qed.

(** C4: the destination identifier of the request sent for a resource
    name is ["copy-"] followed by the final colon-delimited segment of the
    name, which every name has; in particular a name [pre:base], with
    [base] free of colons, is copied to [copy-base]. *)
Theorem target_is_copy_of_final_segment {W} `{RDS W}
    (os_environ : gmap string string) (source_region kms_key_id : string) (w : W) :
  os_environ !! "SOURCE_REGION" = Some source_region ->
  os_environ !! "DESTINATION_REGION_KMS_KEY_ID" = Some kms_key_id ->
  (forall name seg,
      final_segment name seg ->
      TargetDBSnapshotIdentifier
        <$> copies (calls (trace (copy_snapshot os_environ (VStr name) w)))
      = ["copy-" +:+ seg]) /\
  (forall pre base,
      no_colon base = true ->
      TargetDBSnapshotIdentifier
        <$> copies (calls (trace
              (copy_snapshot os_environ (VStr (pre +:+ ":" +:+ base)) w)))
      = ["copy-" +:+ base]) /\
  (forall name, exists seg, final_segment name seg).
Proof.
  intros Hsrc Hkms.
  assert (forall name seg,
             final_segment name seg ->
             TargetDBSnapshotIdentifier
               <$> copies (calls (trace (copy_snapshot os_environ (VStr name) w)))
             = ["copy-" +:+ seg]) as Hfinal.
  { intros name seg Hseg. rewrite (body_calls _ _ _ _ _ Hsrc Hkms). cbn.
    rewrite (name_of_final _ _ Hseg). reflexivity. }
  split; [exact Hfinal|]. split; [|apply final_segment_exists].
  intros pre base Hbase. apply Hfinal. split; [exact Hbase|].
  right. exists pre. reflexivity.
Qed.

(** C10: a resource name without a colon is its own last segment: the
    split yields the name alone, the turn of the loop sends one request,
    with destination ["copy-"] followed by the whole name, and in the
    handler's run that request is sent when the entry's turn comes. *)
Theorem colon_free_name_is_copied {W} `{RDS W} {LambdaContext : Type}
    (os_environ : gmap string string) (event : dict) (context : LambdaContext)
    (w w1 w2 : W) (region_name source_region kms_key_id : string)
    (before : list string) (name : string) (after : list string) :
  no_colon name = true ->
  os_environ !! "DESTINATION_REGION" = Some region_name ->
  os_environ !! "SOURCE_REGION" = Some source_region ->
  os_environ !! "DESTINATION_REGION_KMS_KEY_ID" = Some kms_key_id ->
  event !! "resources" = Some (VList (VStr <$> (before ++ name :: after))) ->
  boto3_client "rds" region_name w = (Ok tt, w1) ->
  accepted (request_for source_region kms_key_id <$> before) w1 = Some w2 ->
  let req :=
    {| SourceDBSnapshotIdentifier := VStr name;
       TargetDBSnapshotIdentifier := "copy-" +:+ name;
       Tags := [ {| Key := "source_region"; Value := source_region |} ];
       SourceRegion := source_region;
       KmsKeyId := kms_key_id |} in
  split ":" name = [name] /\
  calls (trace (copy_snapshot os_environ (VStr name) w2)) = [CopyDBSnapshot req] /\
  copies (calls (trace (lambda_handler os_environ event context w)))
    !! length before = Some req.
Proof.
  intros Hname Hdst Hsrc Hkms Hres Hclient Hacc req.
  assert (request_for source_region kms_key_id name = req) as Hreq
    by (unfold request_for; rewrite (name_of_no_colon _ Hname); reflexivity).
  split; [apply no_colon_split, Hname|]. split.
  - rewrite (body_calls _ _ _ _ _ Hsrc Hkms), Hreq. reflexivity.
  - pose proof (handler_reaches os_environ event context w _ _ _ _ _ _ _ _
                  Hdst Hsrc Hkms Hres Hclient Hacc) as Hrun.
    cbn zeta in Hrun.
    assert (exists more,
               copies (calls (trace (lambda_handler os_environ event context w)))
               = (request_for source_region kms_key_id <$> before) ++ req :: more)
      as [more ->].
    { destruct (copy_db_snapshot _ w2) as [[response|e] w3].
      - destruct Hrun as [more ->]. exists more.
        rewrite fmap_app, <- app_assoc, <- Hreq. reflexivity.
      - destruct Hrun as (_ & -> & _). exists [].
        rewrite fmap_app, <- Hreq. reflexivity. }
    apply list_lookup_middle. rewrite length_fmap. reflexivity.
Qed.

(** *** Sample runs *)

Lemma copies_follow_resources_witness :
  event_of [nightly; weekly] !! "resources"
    = Some (VList (VStr <$> [nightly; weekly])) /\
  accepted (request_for "us-east-1" "alias/replica" <$> [nightly; weekly]) 5%nat
    = Some 3%nat /\
  let r := lambda_handler deployment (event_of [nightly; weekly]) tt 5%nat in
  outcome r = Ok tt /\
  copies (calls (trace r))
    = request_for "us-east-1" "alias/replica" <$> [nightly; weekly] /\
  final r = 3%nat /\
  length (copies (calls (trace r))) = 2%nat.
Proof.
  split; [reflexivity|]. split; [reflexivity|].
  destruct (copies_follow_resources deployment (event_of [nightly; weekly]) tt
              5%nat [nightly; weekly] eq_refl) as (_ & _ & Hlen & Hrun).
  destruct (Hrun "eu-west-1" "us-east-1" "alias/replica" 5%nat 3%nat
              eq_refl eq_refl eq_refl eq_refl eq_refl) as (Hout & Hsent & Hfinal).
  split; [exact Hout|]. split; [exact Hsent|]. split; [exact Hfinal|].
  exact (Hlen Hout).
Defined.

Lemma copy_failure_aborts_witness :
  accepted (request_for "us-east-1" "alias/replica" <$> [nightly]) 1%nat = Some 0%nat /\
  copy_db_snapshot (request_for "us-east-1" "alias/replica" weekly) 0%nat
    = (Raise (BotoError "DBSnapshotAlreadyExists"), 0%nat) /\
  let r := lambda_handler deployment (event_of [nightly; weekly; "monthly"]) tt 1%nat in
  outcome r = Raise (BotoError "DBSnapshotAlreadyExists") /\
  copies (calls (trace r))
    = request_for "us-east-1" "alias/replica" <$> [nightly; weekly] /\
  length (printed (trace r)) = 1%nat /\
  final r = 0%nat.
Proof.
  split; [reflexivity|]. split; [reflexivity|].
  exact (copy_failure_aborts deployment (event_of [nightly; weekly; "monthly"]) tt
           1%nat 1%nat 0%nat 0%nat "eu-west-1" "us-east-1" "alias/replica"
           [nightly] weekly ["monthly"] (BotoError "DBSnapshotAlreadyExists")
           eq_refl eq_refl eq_refl eq_refl eq_refl eq_refl eq_refl).
Defined.

Lemma target_is_copy_of_final_segment_witness :
  final_segment nightly "nightly-2024" /\
  TargetDBSnapshotIdentifier
    <$> copies (calls (trace (copy_snapshot deployment (VStr nightly) 1%nat)))
  = ["copy-nightly-2024"].
Proof.
  assert (final_segment nightly "nightly-2024") as Hseg.
  { split; [reflexivity|]. right.
    exists "arn:aws:rds:us-east-1:123456789012:snapshot". reflexivity. }
  split; [exact Hseg|].
  exact (proj1 (target_is_copy_of_final_segment deployment "us-east-1"
                  "alias/replica" 1%nat eq_refl eq_refl) nightly "nightly-2024" Hseg).
Defined.

Lemma colon_free_name_is_copied_witness :
  no_colon "nightly-2024" = true /\
  copies (calls (trace
     (lambda_handler deployment (event_of [nightly; "nightly-2024"]) tt 1%nat)))
    !! 1%nat
  = Some {| SourceDBSnapshotIdentifier := VStr "nightly-2024";
            TargetDBSnapshotIdentifier := "copy-nightly-2024";
            Tags := [ {| Key := "source_region"; Value := "us-east-1" |} ];
            SourceRegion := "us-east-1";
            KmsKeyId := "alias/replica" |}.
Proof.
  split; [reflexivity|].
  exact (proj2 (proj2
    (colon_free_name_is_copied deployment (event_of [nightly; "nightly-2024"]) tt
       1%nat 1%nat 0%nat "eu-west-1" "us-east-1" "alias/replica"
       [nightly] "nightly-2024" [] eq_refl eq_refl eq_refl eq_refl eq_refl
       eq_refl eq_refl))).
Defined.

(** The specification's scenario: one resource, one request. *)
Example nightly_scenario :
  calls (trace (lambda_handler deployment (event_of [nightly]) tt 1%nat))
  = [ Boto3Client "rds" "eu-west-1";
      CopyDBSnapshot
        {| SourceDBSnapshotIdentifier := VStr nightly;
           TargetDBSnapshotIdentifier := "copy-nightly-2024";
           Tags := [ {| Key := "source_region"; Value := "us-east-1" |} ];
           SourceRegion := "us-east-1";
           KmsKeyId := "alias/replica" |} ].
Proof. vm_compute. reflexivity. Qed.

(** Two events, one environment: the requests differ in their source and
    target only. *)
Example two_events_same_parameters :
  (SourceRegion <$> copies (calls (trace
      (lambda_handler deployment (event_of [nightly]) tt 1%nat))),
   SourceRegion <$> copies (calls (trace
      (lambda_handler deployment (event_of [weekly; "x"]) tt 2%nat))))
  = (["us-east-1"], ["us-east-1"; "us-east-1"]).
Proof. vm_compute. reflexivity. Qed.

End ReplicatorSpec.

(** ** The instance scheduler: properties *)

Module SchedulerSpec.
Import Py PyFacts Scheduler.

Lemma collect_inner instances (acc : list string) :
  fold_left (fun ids i => ids ++ [InstanceId i]) instances acc
  = acc ++ (InstanceId <$> instances).
Proof.
  revert acc. induction instances as [|i instances IH]; intros acc; cbn.
  - rewrite app_nil_r. reflexivity.
  - rewrite IH, <- app_assoc. reflexivity.
Qed.

Lemma collect_outer reservations (acc : list string) :
  fold_left
    (fun ids r => fold_left (fun ids i => ids ++ [InstanceId i]) (Instances r) ids)
    reservations acc
  = acc ++ flat_map (fun r => InstanceId <$> Instances r) reservations.
Proof.
  revert acc. induction reservations as [|r reservations IH]; intros acc; cbn.
  - rewrite app_nil_r. reflexivity.
  - rewrite IH, collect_inner, <- app_assoc. reflexivity.
Qed.

(** The two loops gather exactly the identifiers of the response. *)
Lemma collect_returned response :
  collect_instance_ids response = returned_ids response.
Proof. apply collect_outer. Qed.

Lemma eq_str_false v s : v <> VStr s -> eq_str v s = false.
Proof.
  intros Hv. destruct v; try reflexivity. cbn.
  apply String.eqb_neq. congruence.
Qed.

Section Handler.
Context {W : Type} `{EC2 W} {LambdaContext : Type}.
Implicit Types (w : W) (event : dict) (context : LambdaContext).

(** The start path, by what the provider answers. *)
Lemma start_instances_run instance_ids w :
  start_instances instance_ids w =
    match client_start_instances instance_ids w with
    | (Raise e, w1) =>
        (Raise e,
         [Print [Txt "Starting instances..."];
          Call (StartInstances instance_ids)], w1)
    | (Ok _, w1) =>
        match client_wait "instance_running" instance_ids w1 with
        | (Raise e, w2) =>
            (Raise e,
             [Print [Txt "Starting instances..."];
              Call (StartInstances instance_ids);
              Print [Txt "Waiting for instances to start..."];
              Call (WaiterWait "instance_running" instance_ids)], w2)
        | (Ok _, w2) =>
            (Ok tt,
             [Print [Txt "Starting instances..."];
              Call (StartInstances instance_ids);
              Print [Txt "Waiting for instances to start..."];
              Call (WaiterWait "instance_running" instance_ids);
              Print [Txt "Instances started successfully"]], w2)
        end
    end.
Proof.
  unfold start_instances, bind, call, print, emit.
  destruct (client_start_instances instance_ids w) as [[response|e] w1];
    [|reflexivity].
  destruct (client_wait "instance_running" instance_ids w1) as [[[]|e] w2];
    reflexivity.
Qed.

(** The stop path, by what the provider answers. *)
Lemma stop_instances_run instance_ids w :
  stop_instances instance_ids w =
    match client_stop_instances instance_ids w with
    | (Raise e, w1) =>
        (Raise e,
         [Print [Txt "Stopping instances..."];
          Call (StopInstances instance_ids)], w1)
    | (Ok _, w1) =>
        match client_wait "instance_stopped" instance_ids w1 with
        | (Raise e, w2) =>
            (Raise e,
             [Print [Txt "Stopping instances..."];
              Call (StopInstances instance_ids);
              Print [Txt "Waiting for instances to stop..."];
              Call (WaiterWait "instance_stopped" instance_ids)], w2)
        | (Ok _, w2) =>
            (Ok tt,
             [Print [Txt "Stopping instances..."];
              Call (StopInstances instance_ids);
              Print [Txt "Waiting for instances to stop..."];
              Call (WaiterWait "instance_stopped" instance_ids);
              Print [Txt "Instances stopped successfully"]], w2)
        end
    end.
Proof.
  unfold stop_instances, bind, call, print, emit.
  destruct (client_stop_instances instance_ids w) as [[response|e] w1];
    [|reflexivity].
  destruct (client_wait "instance_stopped" instance_ids w1) as [[[]|e] w2];
    reflexivity.
Qed.

(** The handler, by what the lookup returns and what the event holds. *)
Lemma handler_run event context w :
  lambda_handler event context w =
    match client_describe_instances office_hours w with
    | (Raise e, w1) => (Raise e, prelude event, w1)
    | (Ok response, w1) =>
        match returned_ids response with
        | [] =>
            (Raise (SystemExit None),
             prelude event ++
               [Print [Txt "Found no instance ids with tag Scheduled=OfficeHours"]],
             w1)
        | _ :: _ =>
            let instance_ids := returned_ids response in
            let found :=
              Print [Txt ("Found instance ids " +:+ join "," instance_ids
                          +:+ " with tag Scheduled=OfficeHours")] in
            match event !! "Action" with
            | None =>
                (Raise (KeyError "Action"),
                 prelude event ++ [found; GetItem "Action"], w1)
            | Some action =>
                if eq_str action "Start" then
                  let r := start_instances instance_ids w1 in
                  (outcome r,
                   prelude event ++ [found; GetItem "Action"] ++ trace r,
                   final r)
                else if eq_str action "Stop" then
                  let r := stop_instances instance_ids w1 in
                  (outcome r,
                   prelude event
                     ++ [found; GetItem "Action"; GetItem "Action"] ++ trace r,
                   final r)
                else
                  (Ok tt,
                   prelude event
                     ++ [found; GetItem "Action"; GetItem "Action";
                         GetItem "Action"; Print (unknown_action_line action)],
                   w1)
            end
        end
    end.
Proof.
  unfold lambda_handler, getitem, bind, call, print, emit, ret, raise.
  change [ {| Name := "tag:" +:+ TAG_KEY; Values := [TAG_VALUE] |} ]
    with office_hours.
  destruct (client_describe_instances office_hours w) as [[response|e] w1];
    [|reflexivity].
  rewrite collect_returned.
  destruct (returned_ids response) as [|i ids] eqn:Hids; [reflexivity|].
  destruct (event !! "Action") as [action|]; [|reflexivity].
  destruct (eq_str action "Start").
  { destruct (start_instances (i :: ids) w1) as [[r t] w2]. reflexivity. }
  destruct (eq_str action "Stop").
  { destruct (stop_instances (i :: ids) w1) as [[r t] w2]. reflexivity. }
  reflexivity.
Qed.
End Handler.

(** *** What the scheduler does *)

(** C1, as stated, fails: when the provider refuses the start request the
    exception leaves [start_instances] at once and no wait is made. *)
Lemma start_refused_no_wait :
  let event := event_of (VStr "Start") in
  let w := read_only two_instances in
  let r := lambda_handler event tt w in
  event !! "Action" = Some (VStr "Start") /\
  client_describe_instances office_hours w = (Ok two_instances, w) /\
  returned_ids two_instances = ["i-111"; "i-222"] /\
  calls (trace r)
    = [DescribeInstances office_hours; StartInstances ["i-111"; "i-222"]] /\
  ~ In (WaiterWait "instance_running" ["i-111"; "i-222"]) (calls (trace r)).
Proof.
  repeat split; try reflexivity.
  vm_compute. intros [Hc|[Hc|[]]]; discriminate.
Qed.

(** C1, amended: for an event whose [Action] is ["Start"], when the lookup
    for [Scheduled=OfficeHours] returns identifiers, not none, the handler
    makes one start request, with exactly those identifiers, and no stop
    request or wait for stopped; if the start request does not raise, one
    wait for running follows, with the same identifiers, and the handler
    ends as the wait does; if it raises, the exception leaves the handler
    and there is no wait. *)
Theorem start_path {W} `{EC2 W} {LambdaContext : Type}
    (event : dict) (context : LambdaContext) (w w1 : W)
    (response : describe_response) :
  event !! "Action" = Some (VStr "Start") ->
  client_describe_instances office_hours w = (Ok response, w1) ->
  returned_ids response <> [] ->
  let instance_ids := returned_ids response in
  let r := lambda_handler event context w in
  match client_start_instances instance_ids w1 with
  | (Ok _, w2) =>
      calls (trace r)
        = [DescribeInstances office_hours; StartInstances instance_ids;
           WaiterWait "instance_running" instance_ids] /\
      outcome r = (client_wait "instance_running" instance_ids w2).1 /\
      final r = (client_wait "instance_running" instance_ids w2).2
  | (Raise e, w2) =>
      calls (trace r)
        = [DescribeInstances office_hours; StartInstances instance_ids] /\
      outcome r = Raise e /\
      final r = w2
  end.
Proof.
  intros Haction Hlookup Hids instance_ids r. subst r instance_ids.
  rewrite handler_run, Hlookup, Haction.
  destruct (returned_ids response) as [|i ids] eqn:Hret; [congruence|].
  cbn [eq_str String.eqb Ascii.eqb Bool.eqb]. cbn zeta.
  rewrite <- Hret, start_instances_run.
  destruct (client_start_instances _ w1) as [[started|e] w2].
  - destruct (client_wait _ _ w2) as [[[]|e] w3]; repeat split.
  - repeat split.
Qed.

(** C5, as stated, fails in the same way: a refused stop request is not
    followed by a wait. *)
Lemma stop_refused_no_wait :
  let event := event_of (VStr "Stop") in
  let w := read_only two_instances in
  let r := lambda_handler event tt w in
  event !! "Action" = Some (VStr "Stop") /\
  client_describe_instances office_hours w = (Ok two_instances, w) /\
  returned_ids two_instances = ["i-111"; "i-222"] /\
  calls (trace r)
    = [DescribeInstances office_hours; StopInstances ["i-111"; "i-222"]] /\
  ~ In (WaiterWait "instance_stopped" ["i-111"; "i-222"]) (calls (trace r)).
Proof.
  repeat split; try reflexivity.
  vm_compute. intros [Hc|[Hc|[]]]; discriminate.
Qed.

(** C5, amended: for an event whose [Action] is ["Stop"], when the lookup
    returns identifiers, not none, the handler makes one stop request,
    with exactly those identifiers, and no start request or wait for
    running; if the stop request does not raise, one wait for stopped
    follows, with the same identifiers, and the handler ends as the wait
    does; if it raises, the exception leaves the handler and there is no
    wait. *)
Theorem stop_path {W} `{EC2 W} {LambdaContext : Type}
    (event : dict) (context : LambdaContext) (w w1 : W)
    (response : describe_response) :
  event !! "Action" = Some (VStr "Stop") ->
  client_describe_instances office_hours w = (Ok response, w1) ->
  returned_ids response <> [] ->
  let instance_ids := returned_ids response in
  let r := lambda_handler event context w in
  match client_stop_instances instance_ids w1 with
  | (Ok _, w2) =>
      calls (trace r)
        = [DescribeInstances office_hours; StopInstances instance_ids;
           WaiterWait "instance_stopped" instance_ids] /\
      outcome r = (client_wait "instance_stopped" instance_ids w2).1 /\
      final r = (client_wait "instance_stopped" instance_ids w2).2
  | (Raise e, w2) =>
      calls (trace r)
        = [DescribeInstances office_hours; StopInstances instance_ids] /\
      outcome r = Raise e /\
      final r = w2
  end.
Proof.
  intros Haction Hlookup Hids instance_ids r. subst r instance_ids.
  rewrite handler_run, Hlookup, Haction.
  destruct (returned_ids response) as [|i ids] eqn:Hret; [congruence|].
  cbn [eq_str String.eqb Ascii.eqb Bool.eqb]. cbn zeta.
  rewrite <- Hret, stop_instances_run.
  destruct (client_stop_instances _ w1) as [[stopped|e] w2].
  - destruct (client_wait _ _ w2) as [[[]|e] w3]; repeat split.
  - repeat split.
Qed.

(** C3: whatever the event, when the lookup returns no identifier the
    handler makes no call but the lookup, logs that it found none and
    leaves through [exit()]: [SystemExit] without a code, exit status 0. *)
Theorem empty_lookup_exits {W} `{EC2 W} {LambdaContext : Type}
    (event : dict) (context : LambdaContext) (w w1 : W)
    (response : describe_response) :
  client_describe_instances office_hours w = (Ok response, w1) ->
  returned_ids response = [] ->
  let r := lambda_handler event context w in
  calls (trace r) = [DescribeInstances office_hours] /\
  outcome r = Raise (SystemExit None) /\
  exit_status (outcome r) = 0%Z /\
  printed (trace r)
    = [ [ValEvent event]; [ValContext];
        [Txt "Found no instance ids with tag Scheduled=OfficeHours"] ] /\
  final r = w1.
Proof.
  intros Hlookup Hids r. subst r.
  rewrite handler_run, Hlookup, Hids. repeat split.
Qed.

(** C6, as stated, fails: with an unknown action and no tagged instance,
    the handler leaves through [exit()] before it reads [Action]; the
    value is not logged and the handler does not return. *)
Lemma unknown_action_unseen_when_idle :
  let event := event_of (VStr "Restart") in
  let r := lambda_handler event tt (healthy no_instances) in
  event !! "Action" = Some (VStr "Restart") /\
  outcome r <> Ok tt /\
  ~ In (unknown_action_line (VStr "Restart")) (printed (trace r)).
Proof.
  repeat split.
  - vm_compute. discriminate.
  - vm_compute. intros [Hc|[Hc|[Hc|[]]]]; discriminate.
Qed.

(** C6, amended: for an event whose [Action] is present and is neither
    ["Start"] nor ["Stop"], the handler makes no start, stop or wait call,
    whatever the lookup does; and when the lookup returns identifiers, not
    none, it logs the unrecognized value, last of all, and returns. *)
Theorem unknown_action_ignored {W} `{EC2 W} {LambdaContext : Type}
    (event : dict) (context : LambdaContext) (w : W) (action : value) :
  event !! "Action" = Some action ->
  action <> VStr "Start" ->
  action <> VStr "Stop" ->
  let r := lambda_handler event context w in
  calls (trace r) = [DescribeInstances office_hours] /\
  (forall response w1,
      client_describe_instances office_hours w = (Ok response, w1) ->
      returned_ids response <> [] ->
      outcome r = Ok tt /\
      List.last (printed (trace r)) [] = unknown_action_line action /\
      final r = w1).
Proof.
  intros Haction Hstart Hstop r. subst r.
  rewrite handler_run, Haction.
  rewrite (eq_str_false _ _ Hstart), (eq_str_false _ _ Hstop).
  destruct (client_describe_instances office_hours w) as [[response|e] w1].
  - destruct (returned_ids response) as [|i ids] eqn:Hret.
    + split; [reflexivity|]. intros ? ? [= <- <-]. congruence.
    + split; [reflexivity|]. intros ? ? [= <- <-] _. repeat split.
  - split; [reflexivity|]. intros ? ? [=].
Qed.

(** C9: every invocation starts with its two prints and the lookup, which
    is its only lookup, and reads [Action], if at all, after them; so for
    an event without [Action], when the lookup returns identifiers, not
    none, the handler ends in [KeyError] for ["Action"], after the lookup
    and with no other call. *)
Theorem lookup_precedes_action {W} `{EC2 W} {LambdaContext : Type}
    (event : dict) (context : LambdaContext) (w : W) :
  let r := lambda_handler event context w in
  (exists rest,
      trace r = Print [ValEvent event] :: Print [ValContext]
                  :: Call (DescribeInstances office_hours) :: rest /\
      List.filter is_lookup (calls rest) = []) /\
  (forall response w1,
      event !! "Action" = None ->
      client_describe_instances office_hours w = (Ok response, w1) ->
      returned_ids response <> [] ->
      outcome r = Raise (KeyError "Action") /\
      calls (trace r) = [DescribeInstances office_hours] /\
      final r = w1).
Proof.
  intros r. subst r. rewrite handler_run. split.
  - destruct (client_describe_instances office_hours w) as [[response|e] w1];
      [|exists []; split; reflexivity].
    destruct (returned_ids response) as [|i ids];
      [eexists; split; reflexivity|].
    cbn zeta.
    destruct (event !! "Action") as [action|];
      [|eexists; split; reflexivity].
    destruct (eq_str action "Start").
    { rewrite start_instances_run.
      destruct (client_start_instances _ w1) as [[started|e] w2];
        [|eexists; split; reflexivity].
      destruct (client_wait _ _ w2) as [[[]|e] w3]; eexists; split; reflexivity. }
    destruct (eq_str action "Stop").
    { rewrite stop_instances_run.
      destruct (client_stop_instances _ w1) as [[stopped|e] w2];
        [|eexists; split; reflexivity].
      destruct (client_wait _ _ w2) as [[[]|e] w3]; eexists; split; reflexivity. }
    eexists; split; reflexivity.
  - intros response w1 Haction Hlookup Hids. rewrite Hlookup, Haction.
    destruct (returned_ids response) as [|i ids]; [congruence|].
    repeat split.
Qed.

(** *** Sample runs *)

Lemma start_path_witness :
  event_of (VStr "Start") !! "Action" = Some (VStr "Start") /\
  returned_ids two_instances <> [] /\
  calls (trace (lambda_handler (event_of (VStr "Start")) tt (healthy two_instances)))
    = [DescribeInstances office_hours; StartInstances ["i-111"; "i-222"];
       WaiterWait "instance_running" ["i-111"; "i-222"]].
Proof.
  assert (returned_ids two_instances <> []) as Hids by discriminate.
  split; [reflexivity|]. split; [exact Hids|].
  pose proof (start_path (event_of (VStr "Start")) tt (healthy two_instances)
                (healthy two_instances) two_instances eq_refl eq_refl Hids) as Hrun.
  exact (proj1 Hrun).
Defined.

Lemma stop_path_witness :
  event_of (VStr "Stop") !! "Action" = Some (VStr "Stop") /\
  returned_ids two_instances <> [] /\
  calls (trace (lambda_handler (event_of (VStr "Stop")) tt (healthy two_instances)))
    = [DescribeInstances office_hours; StopInstances ["i-111"; "i-222"];
       WaiterWait "instance_stopped" ["i-111"; "i-222"]].
Proof.
  assert (returned_ids two_instances <> []) as Hids by discriminate.
  split; [reflexivity|]. split; [exact Hids|].
  pose proof (stop_path (event_of (VStr "Stop")) tt (healthy two_instances)
                (healthy two_instances) two_instances eq_refl eq_refl Hids) as Hrun.
  exact (proj1 Hrun).
Defined.

(** The specification's scenario: nothing tagged, [Action="Stop"]. *)
Lemma empty_lookup_exits_witness :
  returned_ids no_instances = [] /\
  let r := lambda_handler (event_of (VStr "Stop")) tt (healthy no_instances) in
  calls (trace r) = [DescribeInstances office_hours] /\
  outcome r = Raise (SystemExit None) /\
  exit_status (outcome r) = 0%Z.
Proof.
  split; [reflexivity|].
  pose proof (empty_lookup_exits (event_of (VStr "Stop")) tt (healthy no_instances)
                (healthy no_instances) no_instances eq_refl eq_refl) as Hrun.
  cbn zeta in Hrun. cbn zeta.
  destruct Hrun as (Hcalls & Hout & Hstatus & _).
  split; [exact Hcalls|]. split; [exact Hout | exact Hstatus].
Defined.

Lemma unknown_action_ignored_witness :
  event_of (VInt 7) !! "Action" = Some (VInt 7) /\
  VInt 7 <> VStr "Start" /\
  VInt 7 <> VStr "Stop" /\
  let r := lambda_handler (event_of (VInt 7)) tt (healthy two_instances) in
  calls (trace r) = [DescribeInstances office_hours] /\
  outcome r = Ok tt /\
  List.last (printed (trace r)) [] = unknown_action_line (VInt 7).
Proof.
  assert (VInt 7 <> VStr "Start") as Hstart by discriminate.
  assert (VInt 7 <> VStr "Stop") as Hstop by discriminate.
  split; [reflexivity|]. split; [exact Hstart|]. split; [exact Hstop|].
  pose proof (unknown_action_ignored (event_of (VInt 7)) tt (healthy two_instances)
                (VInt 7) eq_refl Hstart Hstop) as Hrun.
  cbn zeta in Hrun. cbn zeta. destruct Hrun as [Hcalls Hlog].
  assert (returned_ids two_instances <> []) as Hids by discriminate.
  destruct (Hlog two_instances (healthy two_instances) eq_refl Hids)
    as (Hout & Hlast & _).
  split; [exact Hcalls|]. split; [exact Hout | exact Hlast].
Defined.

Lemma lookup_precedes_action_witness :
  (∅ : dict) !! "Action" = None /\
  let r := lambda_handler (∅ : dict) tt (healthy two_instances) in
  outcome r = Raise (KeyError "Action") /\
  calls (trace r) = [DescribeInstances office_hours].
Proof.
  split; [reflexivity|].
  pose proof (lookup_precedes_action (∅ : dict) tt (healthy two_instances)) as Hrun.
  cbn zeta in Hrun. cbn zeta. destruct Hrun as [_ Hkey].
  assert (returned_ids two_instances <> []) as Hids by discriminate.
  destruct (Hkey two_instances (healthy two_instances) eq_refl eq_refl Hids)
    as (Hout & Hcalls & _).
  split; [exact Hout | exact Hcalls].
Defined.

(** The specification's scenario: two tagged instances, [Action="Start"]. *)
Example start_scenario :
  trace (lambda_handler (event_of (VStr "Start")) tt (healthy two_instances))
  = [ Print [ValEvent (event_of (VStr "Start"))];
      Print [ValContext];
      Call (DescribeInstances office_hours);
      Print [Txt "Found instance ids i-111,i-222 with tag Scheduled=OfficeHours"];
      GetItem "Action";
      Print [Txt "Starting instances..."];
      Call (StartInstances ["i-111"; "i-222"]);
      Print [Txt "Waiting for instances to start..."];
      Call (WaiterWait "instance_running" ["i-111"; "i-222"]);
      Print [Txt "Instances started successfully"] ].
Proof. reflexivity. Qed.

(** A failed lookup ends the invocation before [Action] is looked at. *)
Example lookup_failure_scenario :
  let down := {| on_describe := Raise (BotoError "RequestLimitExceeded");
                 on_start := Ok VNone; on_stop := Ok VNone; on_wait := Ok tt |} in
  lambda_handler (∅ : dict) tt down
  = (Raise (BotoError "RequestLimitExceeded"), prelude ∅, down).
Proof. reflexivity. Qed.

End SchedulerSpec.

(** ** The replicator at the edges of its input *)

Module ReplicatorEdges.
Import Py PyFacts Kinds Replicator ReplicatorSpec.

Section Runs.
Context {W : Type} `{RDS W} {LambdaContext : Type}.
Implicit Types (os_environ : gmap string string) (w : W) (event : dict)
  (context : LambdaContext).

(** The handler on any list of items, once the client exists. *)
Lemma handler_on_items os_environ event context w region_name items w1 :
  os_environ !! "DESTINATION_REGION" = Some region_name ->
  event !! "resources" = Some (VList items) ->
  boto3_client "rds" region_name w = (Ok tt, w1) ->
  lambda_handler os_environ event context w =
    let r := for_each (copy_snapshot os_environ) items w1 in
    (outcome r,
     Call (Boto3Client "rds" region_name) :: GetItem "resources" :: trace r,
     final r).
Proof.
  intros Hdst Hres Hclient.
  unfold lambda_handler, environ, getitem. rewrite Hdst, Hres.
  unfold bind, ret, call, emit, iter. cbn. rewrite Hclient.
  destruct (for_each _ _ w1) as [[r t] w2]. reflexivity.
Qed.

(** The handler when [resources] is there and the client exists. *)
Lemma handler_on_value os_environ event context w region_name resources w1 :
  os_environ !! "DESTINATION_REGION" = Some region_name ->
  event !! "resources" = Some resources ->
  boto3_client "rds" region_name w = (Ok tt, w1) ->
  lambda_handler os_environ event context w =
    match iter (C := rds_call) resources w1 with
    | (Ok items, _, _) =>
        let r := for_each (copy_snapshot os_environ) items w1 in
        (outcome r,
         Call (Boto3Client "rds" region_name) :: GetItem "resources" :: trace r,
         final r)
    | (Raise e, _, _) =>
        (Raise e, [Call (Boto3Client "rds" region_name); GetItem "resources"], w1)
    end.
Proof.
  intros Hdst Hres Hclient.
  unfold lambda_handler, environ, getitem. rewrite Hdst, Hres.
  unfold bind, ret, call, emit. cbn. rewrite Hclient.
  destruct resources; cbn; try reflexivity;
    destruct (for_each _ _ w1) as [[r t] w2]; reflexivity.
Qed.

(** A loop over accepted string entries, whatever comes after them. *)
Lemma loop_accepted_then os_environ source_region kms_key_id before rest w w' :
  os_environ !! "SOURCE_REGION" = Some source_region ->
  os_environ !! "DESTINATION_REGION_KMS_KEY_ID" = Some kms_key_id ->
  accepted (request_for source_region kms_key_id <$> before) w = Some w' ->
  exists t,
    copies (calls t) = request_for source_region kms_key_id <$> before /\
    for_each (copy_snapshot os_environ) ((VStr <$> before) ++ rest) w =
      let r := for_each (copy_snapshot os_environ) rest w' in
      (outcome r, t ++ trace r, final r).
Proof.
  intros Hsrc Hkms. revert w.
  induction before as [|s before IH]; intros w Hacc.
  - injection Hacc as <-. exists []. split; [reflexivity|].
    cbn. destruct (for_each _ _ w) as [[r t] w1]. reflexivity.
  - rewrite fmap_cons in Hacc. cbn [accepted] in Hacc.
    destruct (copy_db_snapshot _ w) as [[response|e] w1] eqn:Hcopy; [|discriminate].
    destruct (IH w1 Hacc) as (t & Ht & Hrun).
    exists (Call (CopyDBSnapshot (request_for source_region kms_key_id s))
              :: Print [Val response] :: t).
    split.
    + cbn. rewrite Ht. reflexivity.
    + rewrite fmap_cons. cbn [app for_each].
      rewrite (bind_ok _ _ w tt
                 [Call (CopyDBSnapshot (request_for source_region kms_key_id s));
                  Print [Val response]] w1)
        by (rewrite (copy_snapshot_str _ _ _ _ _ Hsrc Hkms); cbn;
            rewrite Hcopy; reflexivity).
      rewrite Hrun. reflexivity.
Qed.

(** A turn on anything but a string raises at [split], silently. *)
Lemma copy_snapshot_not_str os_environ v w :
  is_str v = false ->
  exists what, copy_snapshot os_environ v w = (Raise (AttributeError what), [], w).
Proof.
  intros Hv. destruct v; try discriminate; eexists; reflexivity.
Qed.
End Runs.

(** *** Configuration and event errors *)

(** X1: without [DESTINATION_REGION] the handler ends in [KeyError] for
    it before anything else happens: no client is made, the event is not
    read, nothing is printed and the provider is left as it was, whatever
    the event holds. *)
Theorem destination_region_required {W} `{RDS W} {LambdaContext : Type}
    (os_environ : gmap string string) (event : dict) (context : LambdaContext)
    (w : W) :
  os_environ !! "DESTINATION_REGION" = None ->
  lambda_handler os_environ event context w
    = (Raise (KeyError "DESTINATION_REGION"), [], w).
Proof.
  intros Hdst. unfold lambda_handler, environ. rewrite Hdst. reflexivity.
Qed.

(** X2: an event without [resources] ends the handler in [KeyError] for
    it, after the client has been made for the destination region and
    with no copy request. *)
Theorem resources_required {W} `{RDS W} {LambdaContext : Type}
    (os_environ : gmap string string) (event : dict) (context : LambdaContext)
    (w w1 : W) (region_name : string) :
  os_environ !! "DESTINATION_REGION" = Some region_name ->
  boto3_client "rds" region_name w = (Ok tt, w1) ->
  event !! "resources" = None ->
  let r := lambda_handler os_environ event context w in
  outcome r = Raise (KeyError "resources") /\
  calls (trace r) = [Boto3Client "rds" region_name] /\
  final r = w1.
Proof.
  intros Hdst Hclient Hres r. subst r.
  unfold lambda_handler, environ, getitem. rewrite Hdst, Hres.
  unfold bind, ret, call, emit, raise. cbn. rewrite Hclient. repeat split.
Qed.

(** X3: the source region and the key are read inside the loop only: with
    an empty [resources] list the handler returns, having made no copy
    request, even when neither variable is set. *)
Theorem empty_resources_return {W} `{RDS W} {LambdaContext : Type}
    (os_environ : gmap string string) (event : dict) (context : LambdaContext)
    (w w1 : W) (region_name : string) :
  os_environ !! "DESTINATION_REGION" = Some region_name ->
  boto3_client "rds" region_name w = (Ok tt, w1) ->
  event !! "resources" = Some (VList []) ->
  lambda_handler os_environ event context w
    = (Ok tt, [Call (Boto3Client "rds" region_name); GetItem "resources"], w1).
Proof.
  intros Hdst Hclient Hres.
  rewrite (handler_on_items _ _ _ _ _ _ _ Hdst Hres Hclient). reflexivity.
Qed.

(** X4: when the first entry is a string and a variable of the loop is
    missing, the handler ends in [KeyError] before any copy request:
    for [SOURCE_REGION] if that is missing, else for
    [DESTINATION_REGION_KMS_KEY_ID]. *)
Theorem loop_variables_required {W} `{RDS W} {LambdaContext : Type}
    (os_environ : gmap string string) (event : dict) (context : LambdaContext)
    (w w1 : W) (region_name s : string) (rest : list value) :
  os_environ !! "DESTINATION_REGION" = Some region_name ->
  boto3_client "rds" region_name w = (Ok tt, w1) ->
  event !! "resources" = Some (VList (VStr s :: rest)) ->
  os_environ !! "SOURCE_REGION" = None \/
  os_environ !! "DESTINATION_REGION_KMS_KEY_ID" = None ->
  let r := lambda_handler os_environ event context w in
  outcome r
    = Raise (KeyError match os_environ !! "SOURCE_REGION" with
                      | Some _ => "DESTINATION_REGION_KMS_KEY_ID"
                      | None => "SOURCE_REGION"
                      end) /\
  copies (calls (trace r)) = [] /\
  final r = w1.
Proof.
  intros Hdst Hclient Hres Hmissing r. subst r.
  rewrite (handler_on_items _ _ _ _ _ _ _ Hdst Hres Hclient).
  cbn [for_each].
  assert (copy_snapshot os_environ (VStr s) w1
          = (Raise (KeyError match os_environ !! "SOURCE_REGION" with
                             | Some _ => "DESTINATION_REGION_KMS_KEY_ID"
                             | None => "SOURCE_REGION"
                             end), [], w1)) as Hbody.
  { unfold copy_snapshot, split_method.
    rewrite (bind_ok _ _ w1 (split ":" s) [] w1) by reflexivity.
    rewrite (bind_ok _ _ w1 (name_of s) [] w1)
      by (apply last_item_last, split_nonempty).
    unfold environ.
    destruct (os_environ !! "SOURCE_REGION") as [src|]; [|reflexivity].
    destruct Hmissing as [Hsrc | Hkms]; [discriminate|].
    rewrite Hkms. reflexivity. }
  rewrite (bind_raise _ _ _ _ _ _ Hbody). repeat split.
Qed.

(** X5: when [resources] is [None], a boolean or a number, the handler
    ends in [TypeError] at the [for], with no copy request. *)
Theorem scalar_resources_rejected {W} `{RDS W} {LambdaContext : Type}
    (os_environ : gmap string string) (event : dict) (context : LambdaContext)
    (w w1 : W) (region_name : string) (resources : value) :
  os_environ !! "DESTINATION_REGION" = Some region_name ->
  boto3_client "rds" region_name w = (Ok tt, w1) ->
  event !! "resources" = Some resources ->
  scalar resources = true ->
  let r := lambda_handler os_environ event context w in
  (exists what, outcome r = Raise (TypeError what)) /\
  calls (trace r) = [Boto3Client "rds" region_name] /\
  final r = w1.
Proof.
  intros Hdst Hclient Hres Hscalar r. subst r.
  rewrite (handler_on_value _ _ _ _ _ _ _ Hdst Hres Hclient).
  destruct resources; try discriminate; cbn;
    (split; [eexists; reflexivity | split; reflexivity]).
Qed.

(** X6: an entry that is not a string ends the handler in
    [AttributeError] at [split]; the string entries before it, which the
    provider accepted, have had their requests, and no request is made
    for that entry or for a later one. *)
Theorem non_string_entry_aborts {W} `{RDS W} {LambdaContext : Type}
    (os_environ : gmap string string) (event : dict) (context : LambdaContext)
    (w w1 w2 : W) (region_name source_region kms_key_id : string)
    (before : list string) (entry : value) (after : list value) :
  os_environ !! "DESTINATION_REGION" = Some region_name ->
  os_environ !! "SOURCE_REGION" = Some source_region ->
  os_environ !! "DESTINATION_REGION_KMS_KEY_ID" = Some kms_key_id ->
  event !! "resources" = Some (VList ((VStr <$> before) ++ entry :: after)) ->
  is_str entry = false ->
  boto3_client "rds" region_name w = (Ok tt, w1) ->
  accepted (request_for source_region kms_key_id <$> before) w1 = Some w2 ->
  let r := lambda_handler os_environ event context w in
  (exists what, outcome r = Raise (AttributeError what)) /\
  copies (calls (trace r)) = request_for source_region kms_key_id <$> before /\
  final r = w2.
Proof.
  intros Hdst Hsrc Hkms Hres Hentry Hclient Hacc r. subst r.
  rewrite (handler_on_items _ _ _ _ _ _ _ Hdst Hres Hclient).
  destruct (loop_accepted_then _ _ _ _ (entry :: after) _ _ Hsrc Hkms Hacc)
    as (t & Ht & ->).
  cbn [for_each].
  destruct (copy_snapshot_not_str os_environ entry w2 Hentry) as [what Hbody].
  rewrite (bind_raise _ _ _ _ _ _ Hbody). cbn.
  split; [eexists; reflexivity|]. split; [|reflexivity].
  rewrite app_nil_r. exact Ht.
Qed.

(** *** What every run keeps *)

(** One turn sends at most one request, and only one whose destination is
    ["copy-"] and the final segment of its source. *)
Lemma body_well_formed {W} `{RDS W} (os_environ : gmap string string)
    (v : value) (w : W) :
  Forall (fun req =>
            exists name seg,
              SourceDBSnapshotIdentifier req = VStr name /\
              final_segment name seg /\
              TargetDBSnapshotIdentifier req = "copy-" +:+ seg)
         (copies (calls (trace (copy_snapshot os_environ v w)))).
Proof.
  destruct (copy_snapshot_cases os_environ v w)
    as [(req & response & w' & Hv & (Hsrc & Hkms & _) & _ & _)
       |[(req & e & w' & Hv & (Hsrc & Hkms & _) & _ & _) | [e ->]]];
    [| |constructor].
  all: destruct v as [| | | |name| |];
    try (cbn; constructor);
    rewrite (body_calls _ _ _ _ _ Hsrc Hkms); cbn;
    destruct (final_segment_exists name) as [seg Hseg];
    constructor; [|constructor];
    exists name, seg; repeat split; try apply Hseg;
    cbn; rewrite (name_of_final _ _ Hseg); reflexivity.
Qed.

(** X7: in every run, whatever the event, the environment and the
    provider, each copy request names a string as its source and, as its
    destination, ["copy-"] followed by the final colon-delimited segment
    of that string: a destination has no colon after its prefix. *)
Theorem requests_well_formed {W} `{RDS W} {LambdaContext : Type}
    (os_environ : gmap string string) (event : dict) (context : LambdaContext)
    (w : W) :
  Forall (fun req =>
            exists name seg,
              SourceDBSnapshotIdentifier req = VStr name /\
              final_segment name seg /\
              TargetDBSnapshotIdentifier req = "copy-" +:+ seg)
         (copies (calls (trace (lambda_handler os_environ event context w)))).
Proof.
  destruct (handler_shape os_environ event context w)
    as [(e & t & w' & -> & Ht)
       |(region_name & resources & items & w1 & _ & _ & _ & _ & ->)].
  { cbn [trace fst snd]. rewrite Ht. constructor. }
  cbn. generalize w1. clear.
  induction items as [|v items IH]; intros w1; [constructor|].
  cbn [for_each].
  pose proof (body_well_formed os_environ v w1) as Hbody.
  destruct (copy_snapshot os_environ v w1) as [[[[]|e] t] w2] eqn:Hrun.
  - rewrite (bind_ok _ _ _ _ _ _ Hrun). cbn [trace fst snd] in *.
    rewrite calls_app, copies_app. apply Forall_app. split; [exact Hbody | apply IH].
  - rewrite (bind_raise _ _ _ _ _ _ Hrun). exact Hbody.
Qed.

(** X8: two resource names are copied to the same destination exactly
    when their final segments are the same, whatever comes before the
    last colon. *)
Theorem same_target_iff_same_segment {W} `{RDS W}
    (os_environ : gmap string string) (source_region kms_key_id : string)
    (name1 name2 seg1 seg2 : string) (w1 w2 : W) :
  os_environ !! "SOURCE_REGION" = Some source_region ->
  os_environ !! "DESTINATION_REGION_KMS_KEY_ID" = Some kms_key_id ->
  final_segment name1 seg1 ->
  final_segment name2 seg2 ->
  TargetDBSnapshotIdentifier
    <$> copies (calls (trace (copy_snapshot os_environ (VStr name1) w1)))
  = TargetDBSnapshotIdentifier
    <$> copies (calls (trace (copy_snapshot os_environ (VStr name2) w2)))
  <-> seg1 = seg2.
Proof.
  intros Hsrc Hkms Hseg1 Hseg2.
  rewrite !(body_calls _ _ _ _ _ Hsrc Hkms). cbn.
  rewrite (name_of_final _ _ Hseg1), (name_of_final _ _ Hseg2).
  split; [intros [= Heq]; exact Heq | intros ->; reflexivity].
Qed.

(** The loop calls nothing but [copy_db_snapshot], and prints a response
    for every request but, at most, the last. *)
Lemma loop_calls_and_prints {W} `{RDS W} (os_environ : gmap string string)
    (items : list value) (w : W) :
  let r := for_each (copy_snapshot os_environ) items w in
  calls (trace r) = CopyDBSnapshot <$> copies (calls (trace r)) /\
  length (printed (trace r)) <= length (copies (calls (trace r)))
    <= S (length (printed (trace r))) /\
  (outcome r = Ok tt ->
   length (printed (trace r)) = length (copies (calls (trace r)))).
Proof.
  revert w. induction items as [|v items IH]; intros w.
  { cbn. repeat split; lia. }
  cbn zeta in *. cbn [for_each].
  destruct (copy_snapshot_cases os_environ v w)
    as [(req & response & w' & _ & _ & _ & Hrun)
       |[(req & e & w' & _ & _ & _ & Hrun) | [e Hrun]]].
  - rewrite (bind_ok _ _ _ _ _ _ Hrun). cbn [trace outcome fst snd].
    destruct (IH w') as (IHc & IHp & IHok).
    rewrite calls_app, printed_app, copies_app, !length_app. cbn.
    split; [f_equal; exact IHc|]. split; [lia|].
    intros Hok. f_equal. apply IHok, Hok.
  - rewrite (bind_raise _ _ _ _ _ _ Hrun). cbn.
    split; [reflexivity|]. split; [lia|discriminate].
  - rewrite (bind_raise _ _ _ _ _ _ Hrun). cbn.
    split; [reflexivity|]. split; [lia|discriminate].
Qed.

(** How the handler ends when it does not reach the loop, and what it
    has done when it does. *)
Lemma handler_reaches_loop {W} `{RDS W} {LambdaContext : Type}
    (os_environ : gmap string string) (event : dict) (context : LambdaContext)
    (w : W) :
  (exists e w',
      os_environ !! "DESTINATION_REGION" = None /\
      lambda_handler os_environ event context w = (Raise e, [], w')) \/
  (exists region_name e w',
      os_environ !! "DESTINATION_REGION" = Some region_name /\
      (lambda_handler os_environ event context w
         = (Raise e, [Call (Boto3Client "rds" region_name)], w') \/
       lambda_handler os_environ event context w
         = (Raise e, [Call (Boto3Client "rds" region_name);
                      GetItem "resources"], w'))) \/
  (exists region_name items w1,
      os_environ !! "DESTINATION_REGION" = Some region_name /\
      lambda_handler os_environ event context w =
        let r := for_each (copy_snapshot os_environ) items w1 in
        (outcome r,
         Call (Boto3Client "rds" region_name) :: GetItem "resources" :: trace r,
         final r)).
Proof.
  destruct (os_environ !! "DESTINATION_REGION") as [region_name|] eqn:Hdst.
  2:{ left. exists (KeyError "DESTINATION_REGION"), w. split; [reflexivity|].
      unfold lambda_handler, environ. rewrite Hdst. reflexivity. }
  right.
  destruct (boto3_client "rds" region_name w) as [[[]|e] w1] eqn:Hclient.
  2:{ left. exists region_name, e, w1. split; [reflexivity|]. left.
      unfold lambda_handler, environ. rewrite Hdst.
      unfold bind, ret, call. cbn. rewrite Hclient. reflexivity. }
  destruct (event !! "resources") as [resources|] eqn:Hres.
  2:{ left. exists region_name, (KeyError "resources"), w1.
      split; [reflexivity|]. right.
      unfold lambda_handler, environ, getitem. rewrite Hdst, Hres.
      unfold bind, ret, call, emit, raise. cbn. rewrite Hclient. reflexivity. }
  rewrite (handler_on_value _ _ _ _ _ _ _ Hdst Hres Hclient).
  destruct (iter (C := rds_call) resources w1) as [[[items|e] t] w2].
  - right. exists region_name, items, w1. split; reflexivity.
  - left. exists region_name, e, w1. split; [reflexivity|]. right. reflexivity.
Qed.

(** X9: the client is made once, first, and for the destination region:
    the calls of a run are none when [DESTINATION_REGION] is missing, and
    otherwise the making of the ["rds"] client for that region followed
    by copy requests only. *)
Theorem client_first_then_copies {W} `{RDS W} {LambdaContext : Type}
    (os_environ : gmap string string) (event : dict) (context : LambdaContext)
    (w : W) :
  let r := lambda_handler os_environ event context w in
  match os_environ !! "DESTINATION_REGION" with
  | None => calls (trace r) = []
  | Some region_name =>
      calls (trace r)
        = Boto3Client "rds" region_name
            :: (CopyDBSnapshot <$> copies (calls (trace r)))
  end.
Proof.
  cbn zeta.
  destruct (handler_reaches_loop os_environ event context w)
    as [(e & w' & -> & ->)
       |[(region_name & e & w' & -> & [-> | ->])
        |(region_name & items & w1 & -> & ->)]];
    try reflexivity.
  cbn. f_equal. apply loop_calls_and_prints.
Qed.

(** X10: responses are printed one by one as they come: in every run the
    printed lines are as many as the copy requests, or one fewer when the
    last request raised; a handler that returns has printed one for each
    request. *)
Theorem responses_logged {W} `{RDS W} {LambdaContext : Type}
    (os_environ : gmap string string) (event : dict) (context : LambdaContext)
    (w : W) :
  let r := lambda_handler os_environ event context w in
  length (printed (trace r)) <= length (copies (calls (trace r)))
    <= S (length (printed (trace r))) /\
  (outcome r = Ok tt ->
   length (printed (trace r)) = length (copies (calls (trace r)))).
Proof.
  cbn zeta.
  destruct (handler_reaches_loop os_environ event context w)
    as [(e & w' & _ & ->)
       |[(region_name & e & w' & _ & [-> | ->])
        |(region_name & items & w1 & _ & ->)]];
    try (cbn; split; [lia | discriminate]).
  cbn. apply (loop_calls_and_prints os_environ items w1).
Qed.

(** *** [split] *)

(** X11: [split] loses nothing: joining the fields with the separator
    gives the string back, no field holds the separator, and there is one
    field more than there are separators. *)
Theorem split_join (c : ascii) (s : string) :
  Scheduler.join (String c EmptyString) (split c s) = s /\
  Forall (fun field => occurrences c field = 0) (split c s) /\
  length (split c s) = S (occurrences c s).
Proof.
  unfold Scheduler.join. induction s as [|a s (IHj & IHf & IHl)].
  { repeat split. constructor; [reflexivity|constructor]. }
  cbn [split occurrences].
  destruct (split c s) as [|field fields] eqn:Hs;
    [exfalso; exact (split_nonempty _ _ Hs)|].
  destruct (Ascii.eqb a c) eqn:Ha.
  - apply Ascii.eqb_eq in Ha as ->. split; [|split].
    + change (String.concat (String c EmptyString) (EmptyString :: field :: fields))
        with (String c (String.concat (String c EmptyString) (field :: fields))).
      rewrite IHj. reflexivity.
    + constructor; [reflexivity | exact IHf].
    + cbn in IHl |- *. lia.
  - split; [|split].
    + rewrite <- IHj. destruct fields as [|field' fields]; reflexivity.
    + inversion IHf as [|? ? Hfield Hfields]; subst.
      constructor; [|exact Hfields]. cbn. rewrite Ha. exact Hfield.
    + cbn in IHl |- *. lia.
Qed.

(** *** Sample runs *)

Lemma destination_region_required_witness :
  (∅ : gmap string string) !! "DESTINATION_REGION" = None /\
  lambda_handler ∅ (event_of [nightly]) tt 3%nat
    = (Raise (KeyError "DESTINATION_REGION"), [], 3%nat).
Proof.
  split; [reflexivity|].
  exact (destination_region_required ∅ (event_of [nightly]) tt 3%nat eq_refl).
Defined.

Lemma resources_required_witness :
  (∅ : dict) !! "resources" = None /\
  let r := lambda_handler deployment (∅ : dict) tt 3%nat in
  outcome r = Raise (KeyError "resources") /\
  calls (trace r) = [Boto3Client "rds" "eu-west-1"] /\
  final r = 3%nat.
Proof.
  split; [reflexivity|].
  exact (resources_required deployment (∅ : dict) tt 3%nat 3%nat "eu-west-1"
           eq_refl eq_refl eq_refl).
Defined.

Lemma empty_resources_return_witness :
  destination_only !! "SOURCE_REGION" = None /\
  resources_event (VList []) !! "resources" = Some (VList []) /\
  lambda_handler destination_only (resources_event (VList [])) tt 0%nat
    = (Ok tt, [Call (Boto3Client "rds" "eu-west-1"); GetItem "resources"], 0%nat).
Proof.
  split; [reflexivity|]. split; [reflexivity|].
  exact (empty_resources_return destination_only (resources_event (VList [])) tt
           0%nat 0%nat "eu-west-1" eq_refl eq_refl eq_refl).
Defined.

Lemma loop_variables_required_witness :
  destination_only !! "SOURCE_REGION" = None /\
  let r := lambda_handler destination_only (event_of [nightly; weekly]) tt 5%nat in
  outcome r = Raise (KeyError "SOURCE_REGION") /\
  copies (calls (trace r)) = [] /\
  final r = 5%nat.
Proof.
  split; [reflexivity|].
  exact (loop_variables_required destination_only (event_of [nightly; weekly]) tt
           5%nat 5%nat "eu-west-1" nightly [VStr weekly]
           eq_refl eq_refl eq_refl (or_introl eq_refl)).
Defined.

Lemma scalar_resources_rejected_witness :
  scalar (VInt 3) = true /\
  let r := lambda_handler deployment (resources_event (VInt 3)) tt 5%nat in
  (exists what, outcome r = Raise (TypeError what)) /\
  calls (trace r) = [Boto3Client "rds" "eu-west-1"] /\
  final r = 5%nat.
Proof.
  split; [reflexivity|].
  exact (scalar_resources_rejected deployment (resources_event (VInt 3)) tt
           5%nat 5%nat "eu-west-1" (VInt 3) eq_refl eq_refl eq_refl eq_refl).
Defined.

Lemma non_string_entry_aborts_witness :
  is_str VNone = false /\
  let r := lambda_handler deployment
             (resources_event (VList [VStr nightly; VNone; VStr weekly])) tt 5%nat in
  (exists what, outcome r = Raise (AttributeError what)) /\
  copies (calls (trace r)) = [request_for "us-east-1" "alias/replica" nightly] /\
  final r = 4%nat.
Proof.
  split; [reflexivity|].
  exact (non_string_entry_aborts deployment
           (resources_event (VList [VStr nightly; VNone; VStr weekly])) tt
           5%nat 5%nat 4%nat "eu-west-1" "us-east-1" "alias/replica"
           [nightly] VNone [VStr weekly]
           eq_refl eq_refl eq_refl eq_refl eq_refl eq_refl eq_refl).
Defined.

Lemma same_target_iff_same_segment_witness :
  final_segment "arn:aws:rds:us-east-1:1:snapshot:db" "db" /\
  final_segment "arn:aws:rds:us-west-2:2:snapshot:db" "db" /\
  TargetDBSnapshotIdentifier
    <$> copies (calls (trace (copy_snapshot deployment
                                (VStr "arn:aws:rds:us-east-1:1:snapshot:db") 1%nat)))
  = TargetDBSnapshotIdentifier
    <$> copies (calls (trace (copy_snapshot deployment
                                (VStr "arn:aws:rds:us-west-2:2:snapshot:db") 0%nat))).
Proof.
  assert (final_segment "arn:aws:rds:us-east-1:1:snapshot:db" "db") as Hseg1.
  { split; [reflexivity|]. right.
    exists "arn:aws:rds:us-east-1:1:snapshot". reflexivity. }
  assert (final_segment "arn:aws:rds:us-west-2:2:snapshot:db" "db") as Hseg2.
  { split; [reflexivity|]. right.
    exists "arn:aws:rds:us-west-2:2:snapshot". reflexivity. }
  split; [exact Hseg1|]. split; [exact Hseg2|].
  exact (proj2 (same_target_iff_same_segment deployment "us-east-1" "alias/replica"
                  _ _ "db" "db" 1%nat 0%nat eq_refl eq_refl Hseg1 Hseg2) eq_refl).
Defined.

(** A refused copy leaves its request unanswered: two requests, one
    printed response. *)
Example one_response_short :
  let r := lambda_handler deployment (event_of [nightly; weekly]) tt 1%nat in
  (length (copies (calls (trace r))), length (printed (trace r))) = (2, 1)%nat.
Proof. vm_compute. reflexivity. Qed.

End ReplicatorEdges.

(** ** The scheduler at the edges of its input *)

Module SchedulerEdges.
Import Py PyFacts Kinds Scheduler SchedulerSpec.

Lemma eq_str_true v s : eq_str v s = true -> v = VStr s.
Proof.
  destruct v; try discriminate. cbn. intros Hs%String.eqb_eq. congruence.
Qed.

(** *** The lookup *)

(** X12: the two loops collect the identifier of every instance of every
    reservation of the response, in the order of the response and without
    dropping repeats: an identifier is collected exactly when an instance
    of a reservation has it, and the list is as long as the instances are
    many. *)
Theorem collected_ids (response : describe_response) :
  collect_instance_ids response
    = flat_map (fun reservation => List.map InstanceId (Instances reservation))
               (Reservations response) /\
  (forall id,
      In id (collect_instance_ids response) <->
      exists reservation instance,
        In reservation (Reservations response) /\
        In instance (Instances reservation) /\
        InstanceId instance = id) /\
  length (collect_instance_ids response)
    = list_sum (List.map (fun reservation => length (Instances reservation))
                  (Reservations response)).
Proof.
  rewrite collect_returned. unfold returned_ids.
  split; [reflexivity|]. split.
  - intros id. rewrite in_flat_map. split.
    + intros (reservation & Hr & Hid). apply in_map_iff in Hid as (i & Hi & Hin).
      exists reservation, i. repeat split; assumption.
    + intros (reservation & i & Hr & Hi & Hid). exists reservation.
      split; [exact Hr|]. apply in_map_iff. exists i. split; assumption.
  - induction (Reservations response) as [|r rs IH]; [reflexivity|].
    cbn. rewrite length_app, length_fmap, IH. reflexivity.
Qed.

(** X13: when the lookup raises, the exception leaves the handler at
    once: the lookup is the only call, the event is never subscripted, so
    a missing [Action] goes unnoticed, and nothing is printed after the
    event and the context. *)
Theorem lookup_failure_propagates {W} `{EC2 W} {LambdaContext : Type}
    (event : dict) (context : LambdaContext) (w w1 : W) (e : exn) :
  client_describe_instances office_hours w = (Raise e, w1) ->
  let r := lambda_handler event context w in
  outcome r = Raise e /\
  calls (trace r) = [DescribeInstances office_hours] /\
  subscripts (trace r) = [] /\
  printed (trace r) = [ [ValEvent event]; [ValContext] ] /\
  final r = w1.
Proof.
  intros Hlookup r. subst r. rewrite handler_run, Hlookup. repeat split.
Qed.

(** *** What every run keeps *)

(** X14: in every run the calls are the lookup alone, or the lookup and
    one request, start or stop, for a list of identifiers that is not
    empty, or those two and the wait that matches the request, for the
    same list. The handler never starts and stops in one run, never sends
    an empty list, and never waits for what it did not ask. *)
Theorem calls_shape {W} `{EC2 W} {LambdaContext : Type}
    (event : dict) (context : LambdaContext) (w : W) :
  let cs := calls (trace (lambda_handler event context w)) in
  cs = [DescribeInstances office_hours] \/
  exists instance_ids,
    instance_ids <> [] /\
    (cs = [DescribeInstances office_hours; StartInstances instance_ids] \/
     cs = [DescribeInstances office_hours; StartInstances instance_ids;
           WaiterWait "instance_running" instance_ids] \/
     cs = [DescribeInstances office_hours; StopInstances instance_ids] \/
     cs = [DescribeInstances office_hours; StopInstances instance_ids;
           WaiterWait "instance_stopped" instance_ids]).
Proof.
  cbn zeta. rewrite handler_run.
  destruct (client_describe_instances office_hours w) as [[response|e] w1];
    [|left; reflexivity].
  destruct (returned_ids response) as [|i ids] eqn:Hids; [left; reflexivity|].
  cbn zeta.
  destruct (event !! "Action") as [action|]; [|left; reflexivity].
  destruct (eq_str action "Start").
  { right. exists (i :: ids). split; [discriminate|].
    rewrite start_instances_run.
    destruct (client_start_instances _ w1) as [[started|e] w2];
      [|left; reflexivity].
    destruct (client_wait _ _ w2) as [[[]|e] w3]; right; left; reflexivity. }
  destruct (eq_str action "Stop").
  { right. exists (i :: ids). split; [discriminate|].
    rewrite stop_instances_run.
    destruct (client_stop_instances _ w1) as [[stopped|e] w2];
      [|right; right; left; reflexivity].
    destruct (client_wait _ _ w2) as [[[]|e] w3];
      right; right; right; reflexivity. }
  left. reflexivity.
Qed.

(** X15: the success prints are reached only after the work is done:
    when [print('Instances started successfully')] has been called,
    [Action] was ["Start"], the start request and the wait for running
    were both made and returned, and the handler returned; likewise for
    [print('Instances stopped successfully')], stop and the wait for
    stopped. This is about the two [print] calls, not about the text of
    the log, where an [Action] printed as it is can write any line. *)
Theorem success_line_means_done {W} `{EC2 W} {LambdaContext : Type}
    (event : dict) (context : LambdaContext) (w : W) :
  let r := lambda_handler event context w in
  (In [Txt "Instances started successfully"] (printed (trace r)) ->
   outcome r = Ok tt /\
   event !! "Action" = Some (VStr "Start") /\
   exists instance_ids,
     calls (trace r)
       = [DescribeInstances office_hours; StartInstances instance_ids;
          WaiterWait "instance_running" instance_ids]) /\
  (In [Txt "Instances stopped successfully"] (printed (trace r)) ->
   outcome r = Ok tt /\
   event !! "Action" = Some (VStr "Stop") /\
   exists instance_ids,
     calls (trace r)
       = [DescribeInstances office_hours; StopInstances instance_ids;
          WaiterWait "instance_stopped" instance_ids]).
Proof.
  cbn zeta. rewrite handler_run.
  destruct (client_describe_instances office_hours w) as [[response|e] w1].
  2:{ split; intros [Hc|[Hc|[]]]; discriminate. }
  destruct (returned_ids response) as [|i ids] eqn:Hids.
  { split; intros [Hc|[Hc|[Hc|[]]]]; discriminate. }
  cbn zeta.
  destruct (event !! "Action") as [action|].
  2:{ split; intros [Hc|[Hc|[Hc|[]]]]; discriminate. }
  destruct (eq_str action "Start") eqn:Hstart.
  { apply eq_str_true in Hstart as ->. rewrite start_instances_run.
    destruct (client_start_instances _ w1) as [[started|e] w2].
    2:{ split; intros [Hc|[Hc|[Hc|[Hc|[]]]]]; discriminate. }
    destruct (client_wait _ _ w2) as [[[]|e] w3].
    2:{ split; intros [Hc|[Hc|[Hc|[Hc|[Hc|[]]]]]]; discriminate. }
    split.
    - intros _. split; [reflexivity|]. split; [reflexivity|].
      exists (i :: ids). reflexivity.
    - intros [Hc|[Hc|[Hc|[Hc|[Hc|[Hc|[]]]]]]]; discriminate. }
  destruct (eq_str action "Stop") eqn:Hstop.
  { apply eq_str_true in Hstop as ->. rewrite stop_instances_run.
    destruct (client_stop_instances _ w1) as [[stopped|e] w2].
    2:{ split; intros [Hc|[Hc|[Hc|[Hc|[]]]]]; discriminate. }
    destruct (client_wait _ _ w2) as [[[]|e] w3].
    2:{ split; intros [Hc|[Hc|[Hc|[Hc|[Hc|[]]]]]]; discriminate. }
    split.
    - intros [Hc|[Hc|[Hc|[Hc|[Hc|[Hc|[]]]]]]]; discriminate.
    - intros _. split; [reflexivity|]. split; [reflexivity|].
      exists (i :: ids). reflexivity. }
  split; intros [Hc|[Hc|[Hc|[Hc|[]]]]]; discriminate.
Qed.

(** X16: the handler returns only when instances were found and the
    event has an [Action]: with a failed lookup, with nothing tagged or
    without [Action] an invocation never ends in a normal return. *)
Theorem return_means_found {W} `{EC2 W} {LambdaContext : Type}
    (event : dict) (context : LambdaContext) (w : W) :
  outcome (lambda_handler event context w) = Ok tt ->
  exists response w1 action,
    client_describe_instances office_hours w = (Ok response, w1) /\
    returned_ids response <> [] /\
    event !! "Action" = Some action.
Proof.
  rewrite handler_run.
  destruct (client_describe_instances office_hours w) as [[response|e] w1];
    [|discriminate].
  destruct (returned_ids response) as [|i ids] eqn:Hids; [discriminate|].
  cbn zeta.
  destruct (event !! "Action") as [action|]; [|discriminate].
  intros _. exists response, w1, action. rewrite Hids.
  repeat split. discriminate.
Qed.

(** X17: nothing of the event but [Action] counts: two events with the
    same [Action], or both without, run with the same context against the
    same provider do the same things after the first [print], which shows
    the event: the same prints, subscripts and calls in the same order,
    the same end and the same provider state. *)
Theorem other_fields_ignored {W} `{EC2 W} {LambdaContext : Type}
    (event1 event2 : dict) (context : LambdaContext) (w : W) :
  event1 !! "Action" = event2 !! "Action" ->
  let r1 := lambda_handler event1 context w in
  let r2 := lambda_handler event2 context w in
  outcome r1 = outcome r2 /\
  List.tl (trace r1) = List.tl (trace r2) /\
  calls (trace r1) = calls (trace r2) /\
  final r1 = final r2.
Proof.
  intros Haction r1 r2. subst r1 r2. rewrite !handler_run, Haction.
  destruct (client_describe_instances office_hours w) as [[response|e] w1];
    [|repeat split].
  destruct (returned_ids response) as [|i ids]; [repeat split|].
  cbn zeta.
  destruct (event2 !! "Action") as [action|]; [|repeat split].
  destruct (eq_str action "Start").
  { destruct (start_instances (i :: ids) w1) as [[r t] w2]. repeat split. }
  destruct (eq_str action "Stop").
  { destruct (stop_instances (i :: ids) w1) as [[r t] w2]. repeat split. }
  repeat split.
Qed.

(** *** Sample runs *)

Lemma lookup_failure_propagates_witness :
  client_describe_instances office_hours throttled
    = (Raise (BotoError "RequestLimitExceeded"), throttled) /\
  let r := lambda_handler (∅ : dict) tt throttled in
  outcome r = Raise (BotoError "RequestLimitExceeded") /\
  calls (trace r) = [DescribeInstances office_hours] /\
  subscripts (trace r) = [] /\
  printed (trace r) = [ [ValEvent ∅]; [ValContext] ] /\
  final r = throttled.
Proof.
  split; [reflexivity|].
  exact (lookup_failure_propagates (∅ : dict) tt throttled throttled
           (BotoError "RequestLimitExceeded") eq_refl).
Defined.

Lemma success_line_means_done_witness :
  let r := lambda_handler (event_of (VStr "Stop")) tt (healthy two_instances) in
  In [Txt "Instances stopped successfully"] (printed (trace r)) /\
  outcome r = Ok tt /\
  event_of (VStr "Stop") !! "Action" = Some (VStr "Stop").
Proof.
  cbn zeta.
  assert (In [Txt "Instances stopped successfully"]
            (printed (trace (lambda_handler (event_of (VStr "Stop")) tt
                               (healthy two_instances))))) as Hline
    by (do 5 right; left; reflexivity).
  split; [exact Hline|].
  destruct (proj2 (success_line_means_done (event_of (VStr "Stop")) tt
                     (healthy two_instances)) Hline) as (Hout & Haction & _).
  split; [exact Hout | exact Haction].
Defined.

Lemma return_means_found_witness :
  outcome (lambda_handler (event_of (VStr "Start")) tt (healthy two_instances))
    = Ok tt /\
  exists response w1 action,
    client_describe_instances office_hours (healthy two_instances)
      = (Ok response, w1) /\
    returned_ids response <> [] /\
    event_of (VStr "Start") !! "Action" = Some action.
Proof.
  split; [reflexivity|].
  exact (return_means_found (event_of (VStr "Start")) tt (healthy two_instances)
           eq_refl).
Defined.

Lemma other_fields_ignored_witness :
  event_of (VStr "Stop") !! "Action" = scheduled_stop !! "Action" /\
  List.tl (trace (lambda_handler (event_of (VStr "Stop")) tt (healthy two_instances)))
    = List.tl (trace (lambda_handler scheduled_stop tt (healthy two_instances))).
Proof.
  split; [reflexivity|].
  exact (proj1 (proj2
    (other_fields_ignored (event_of (VStr "Stop")) scheduled_stop
       tt (healthy two_instances) eq_refl))).
Defined.

End SchedulerEdges.
